(** * Expense tracker: validation, submission, filtering and totals

    A shallow embedding of the logic of the three React components
    (ExpenseCard, ExpenseList, ExpenseForm) and of the JavaScript built-ins
    they call, followed by the properties of that logic.

    Conventions of the embedding:
    - a JavaScript string is a [string]; every character stands for one
      UTF-16 code unit below 256;
    - a JavaScript number is an IEEE-754 binary64 value, a [spec_float] at
      precision 53 and maximal exponent 1024;
    - a JavaScript object used as a dictionary (the error map) is a
      [gmap string _]; a property holding [undefined] is a key bound to [None];
    - arrays live in a store indexed by references, so that aliasing and
      in-place mutation can be talked about;
    - React state is threaded explicitly: a handler maps the state of the
      render in which it was created to the state of the next render, and
      returns the list of the effects it performed, in order. *)

From Stdlib Require Import ZArith Ascii String List Lia.
From Stdlib Require Import Floats.SpecFloat.
From Stdlib Require Import Numbers.DecimalString.
From stdpp Require Import gmap strings list.

Local Open Scope Z_scope.

(** ** JavaScript built-ins *)

Module JS.

(** *** Strings *)

(** WhiteSpace and LineTerminator code units below 256: TAB, LF, VT, FF, CR,
    SP and NBSP. *)
Definition is_white_space (c : ascii) : bool :=
  match c with
  | "009" | "010" | "011" | "012" | "013" | " " | "160" => true
  | _ => false
  end%char.

Definition is_empty (s : string) : bool :=
  match s with
  | EmptyString => true
  | String _ _ => false
  end.

(** [!s] for a string [s]: only the empty string is falsy. *)
Definition not_string (s : string) : bool := is_empty s.

Fixpoint trimStart (s : string) : string :=
  match s with
  | EmptyString => EmptyString
  | String c r => if is_white_space c then trimStart r else s
  end.

Fixpoint trimEnd (s : string) : string :=
  match s with
  | EmptyString => EmptyString
  | String c r =>
      let r' := trimEnd r in
      if is_white_space c && is_empty r' then EmptyString else String c r'
  end.

(** [String.prototype.trim] *)
Definition trim (s : string) : string := trimEnd (trimStart s).

(** *** Numbers

    The numbers of a program are the [spec_float]s that [valid_binary]
    accepts at this precision; the results of [parseFloat] and of [add] are
    such. *)

Definition prec : Z := 53.
Definition emax : Z := 1024.

Definition number : Type := spec_float.

Definition NaN : number := S754_nan.
Definition Infinity : number := S754_infinity false.
Definition zero : number := S754_zero false.

Definition isNaN (x : number) : bool :=
  match x with
  | S754_nan => true
  | _ => false
  end.

(** [x + y], [x <= y] and [x < y] on numbers. *)
Definition add (x y : number) : number := SFadd prec emax x y.
Definition le (x y : number) : bool := SFleb x y.
Definition lt (x y : number) : bool := SFltb x y.

(** The number nearest to [m * 10 ^ e10] (ties to even), with sign [neg]. *)
Definition round_decimal (neg : bool) (m : N) (e10 : Z) : number :=
  match m with
  | N0 => S754_zero neg
  | Npos p =>
      match e10 with
      | Z0 => binary_round prec emax neg p 0
      | Zpos q => binary_round prec emax neg (p * Pos.pow 10 q) 0
      | Zneg q =>
          let '(mz, ez, lz) :=
            SFdiv_core_binary prec emax (Zpos p) 0 (Zpos (Pos.pow 10 q)) 0 in
          binary_round_aux prec emax neg mz ez lz
      end
  end.

(** *** parseFloat *)

Definition digit_value (c : ascii) : option N :=
  let n := N_of_ascii c in
  if ((48 <=? n) && (n <=? 57))%N then Some (n - 48)%N else None.

Definition is_digit (c : ascii) : bool :=
  match digit_value c with
  | Some _ => true
  | None => false
  end.

(** The longest prefix of decimal digits, and what follows it. *)
Fixpoint span_digits (s : string) : list N * string :=
  match s with
  | EmptyString => ([], EmptyString)
  | String c r =>
      match digit_value c with
      | Some d => let '(ds, rest) := span_digits r in (d :: ds, rest)
      | None => ([], s)
      end
  end.

Definition digits_to_N (ds : list N) : N :=
  fold_left (fun acc d => 10 * acc + d)%N ds 0%N.

(** ExponentPart: [e] or [E], an optional sign and at least one digit.
    The value is 0 when no exponent part starts the string. *)
Definition parse_exponent (s : string) : Z :=
  match s with
  | String c r =>
      if (Ascii.eqb c "e" || Ascii.eqb c "E")%char then
        let '(neg, r') :=
          match r with
          | String "+"%char r' => (false, r')
          | String "-"%char r' => (true, r')
          | _ => (false, r)
          end in
        match span_digits r' with
        | ([], _) => 0
        | (ds, _) =>
            let v := Z.of_N (digits_to_N ds) in
            if neg then - v else v
        end
      else 0
  | EmptyString => 0
  end.

(** StrUnsignedDecimalLiteral without [Infinity]: the longest prefix of
    one of the forms [ddd.ddd e], [.ddd e] and [ddd e], as a mantissa and a
    power of ten; [None] when no prefix has such a form. *)
Definition parse_unsigned (s : string) : option (N * Z) :=
  let '(ip, r1) := span_digits s in
  match r1 with
  | String "."%char r2 =>
      let '(fp, r3) := span_digits r2 in
      match ip, fp with
      | [], [] => None
      | _, _ =>
          Some (digits_to_N (ip ++ fp),
                parse_exponent r3 - Z.of_nat (length fp))
      end
  | _ =>
      match ip with
      | [] => None
      | _ => Some (digits_to_N ip, parse_exponent r1)
      end
  end.

Definition parseFloat (input : string) : number :=
  let trimmed := trimStart input in
  let '(neg, body) :=
    match trimmed with
    | String "+"%char r => (false, r)
    | String "-"%char r => (true, r)
    | _ => (false, trimmed)
    end in
  if String.prefix "Infinity" body then S754_infinity neg
  else
    match parse_unsigned body with
    | Some (m, e10) => round_decimal neg m e10
    | None => NaN
    end.

(** A numeric literal of the source text. *)
Definition lit (s : string) : number := parseFloat s.

(** *** Number.prototype.toFixed *)

(** The decimal digits of a natural number, most significant first. *)
Definition digits_of (n : N) : list ascii :=
  list_ascii_of_string (NilZero.string_of_uint (N.to_uint n)).

(** [10 ^ k <= m * 2 ^ e], compared exactly. *)
Definition ge_pow10 (m : positive) (e : Z) (k : Z) : bool :=
  match e with
  | Zneg q => 10 ^ k * 2 ^ Zpos q <=? Zpos m
  | _ => 10 ^ k <=? Zpos m * 2 ^ e
  end.

(** The integer [n] for which [n / 10 ^ f] is nearest to [m * 2 ^ e]; of two
    such integers, the larger. *)
Definition scaled_nearest (m : positive) (e : Z) (f : nat) : N :=
  let num := Zpos m * 10 ^ Z.of_nat f in
  Z.to_N
    match e with
    | Zneg q => (2 * num + 2 ^ Zpos q) / (2 * 2 ^ Zpos q)
    | _ => num * 2 ^ e
    end.

(** The digits of [n] with a point before the last [f] of them, padded with
    zeros on the left up to [f + 1] digits. *)
Definition fixed_point (n : N) (f : nat) : string :=
  let m := digits_of n in
  match f with
  | O => string_of_list_ascii m
  | S _ =>
      let m :=
        if (length m <=? f)%nat
        then replicate (f + 1 - length m)%nat "0"%char ++ m
        else m in
      let k := length m in
      string_of_list_ascii (take (k - f)%nat m ++ "."%char :: drop (k - f)%nat m)
  end.

(** Number::toString for the finite numbers [m * 2 ^ e] that are at least
    [10 ^ 21], the only ones [toFixed] passes to it. Such a number is an
    integer [X]. The digits are those of the integer with the fewest
    significant digits that still rounds to the number, the nearest to [X]
    among those, written in exponent form. *)

Definition of_integer (v : Z) : number :=
  match v with
  | Zpos p => binary_round prec emax false p 0
  | _ => zero
  end.

Fixpoint shortest_integer (fuel : nat) (x : number) (X : Z) (scale : Z) : Z :=
  match fuel with
  | O => X
  | S fuel' =>
      let lo := X / scale * scale in
      let hi := lo + scale in
      let ok v := SFeqb (of_integer v) x in
      match ok lo, ok hi with
      | true, true =>
          match X - lo ?= hi - X with
          | Lt => lo
          | Gt => hi
          | Eq => if Z.even (X / scale) then lo else hi
          end
      | true, false => lo
      | false, true => hi
      | false, false => shortest_integer fuel' x X (scale / 10)
      end
  end.

Fixpoint strip_zeros (rev_digits : list ascii) : list ascii :=
  match rev_digits with
  | "0"%char :: r => strip_zeros r
  | _ => rev_digits
  end.

Definition exponent_form (v : Z) : string :=
  let ds := digits_of (Z.to_N v) in
  let n := length ds in
  let sig := rev (strip_zeros (rev ds)) in
  let mantissa :=
    match sig with
    | [] => []
    | [d] => [d]
    | d :: more => d :: "."%char :: more
    end in
  string_of_list_ascii
    (mantissa ++ "e"%char :: "+"%char :: digits_of (N.of_nat (n - 1))).

Definition toString_large (m : positive) (e : Z) : string :=
  let X := Zpos m * 2 ^ e in
  let n := length (digits_of (Z.to_N X)) in
  exponent_form
    (shortest_integer n (S754_finite false m e) X (10 ^ Z.of_nat (n - 1))).

(** [x.toFixed(fractionDigits)], for [fractionDigits] from 0 to 100. *)
Definition toFixed (x : number) (fractionDigits : nat) : string :=
  match x with
  | S754_nan => "NaN"
  | S754_infinity false => "Infinity"
  | S754_infinity true => "-Infinity"
  | S754_zero _ => fixed_point 0 fractionDigits
  | S754_finite neg m e =>
      (if neg then "-" else "") +:+
      (if ge_pow10 m e 21 then toString_large m e
       else fixed_point (scaled_nearest m e fractionDigits) fractionDigits)
  end.

(** *** Arrays

    An array is a reference into a store. [filter] allocates its result,
    the other methods used by the components only read. *)

Abbreviation ref := positive.
Abbreviation store A := (gmap positive (list A)).

Section Arrays.
Context {A : Type}.

(** The elements of the array at [r]. *)
Definition elements_at (h : store A) (r : ref) : list A :=
  default [] (h !! r).

Definition alloc (h : store A) (l : list A) : store A * ref :=
  let r := fresh (dom h) in (<[r := l]> h, r).

(** [r.filter(p)] *)
Definition Array_filter (p : A -> bool) (r : ref) (h : store A)
    : store A * ref :=
  alloc h (List.filter p (elements_at h r)).

(** [r.reduce(f, init)] *)
Definition Array_reduce {B : Type} (f : B -> A -> B) (init : B)
    (r : ref) (h : store A) : B :=
  fold_left f (elements_at h r) init.

(** [r.length] *)
Definition Array_length (r : ref) (h : store A) : nat :=
  length (elements_at h r).

(** [r.map(f)], as the list of children it is rendered to. *)
Definition Array_map {B : Type} (f : A -> B) (r : ref) (h : store A)
    : list B :=
  List.map f (elements_at h r).
End Arrays.

End JS.

(** ** ExpenseCard: the shared data shape *)

Module ExpenseCard.

(** [type ExpenseCategory = 'Food' | 'Transportation' | 'Entertainment' |
    'Shopping' | 'Other']: the string values of the union, in order. *)
Definition ExpenseCategory : list string :=
  ["Food"; "Transportation"; "Entertainment"; "Shopping"; "Other"].

(** [interface ExpenseCardProps], without the callback [onDelete]. The
    optional flags are [None] when the property is not given. *)
Record ExpenseCardProps : Type := {
  id : JS.number;
  description : string;
  amount : JS.number;
  category : string;
  date : string;
  highlighted : option bool;
  showCategory : option bool
}.

End ExpenseCard.

(** ** ExpenseForm: the entry editor *)

Module ExpenseForm.

(** [interface ExpenseFormData] *)
Record ExpenseFormData : Type := {
  description : string;
  amount : string;
  category : string;
  date : string
}.

(** [keyof FormErrors], the names of the four inputs of the form. *)
Inductive FieldName : Type :=
  | name_description
  | name_amount
  | name_category
  | name_date.

Definition key (name : FieldName) : string :=
  match name with
  | name_description => "description"
  | name_amount => "amount"
  | name_category => "category"
  | name_date => "date"
  end.

(** [interface FormErrors]: an object with optional string properties. *)
Abbreviation FormErrors := (gmap string (option string)).

(** [errors[k]]: [undefined] when the property is absent. *)
Definition get (errors : FormErrors) (k : string) : option string :=
  default None (errors !! k).

(** Truthiness of a string or [undefined]. *)
Definition truthy (v : option string) : bool :=
  match v with
  | Some s => negb (JS.is_empty s)
  | None => false
  end.

(** [Object.keys(errors)]; the order of the keys is not observed. *)
Definition Object_keys (errors : FormErrors) : list string :=
  (map_to_list errors).*1.

(** The argument of [onSubmit]. *)
Record Payload : Type := {
  payload_description : string;
  payload_amount : JS.number;
  payload_category : string;
  payload_date : string
}.

Record ValidationResult : Type := {
  isValid : bool;
  errors : FormErrors
}.

Definition validateExpenseForm (data : ExpenseFormData) : ValidationResult :=
  let validationErrors : FormErrors := ∅ in
  let validationErrors :=
    if JS.not_string (JS.trim (description data))
    then <["description" := Some "Description is required"]> validationErrors
    else validationErrors in
  let amount := JS.parseFloat (amount data) in
  let validationErrors :=
    if JS.isNaN amount || JS.le amount JS.zero
    then <["amount" := Some "Amount must be a positive number"]> validationErrors
    else validationErrors in
  let validationErrors :=
    if JS.not_string (category data)
    then <["category" := Some "Category is required"]> validationErrors
    else validationErrors in
  let validationErrors :=
    if JS.not_string (date data)
    then <["date" := Some "Date is required"]> validationErrors
    else validationErrors in
  {| isValid := (length (Object_keys validationErrors) =? 0)%nat;
     errors := validationErrors |}.

(** The two pieces of state of the component. *)
Record State : Type := {
  formData : ExpenseFormData;
  formErrors : FormErrors
}.

(** What a handler does besides updating the state. *)
Inductive Effect : Type :=
  | preventDefault
  | alert (message : string)
  | onSubmit (expenseData : Payload).

(** The draft of a fresh form; [today] is
    [new Date().toISOString().split('T')[0]] at the time of the call. *)
Definition defaults (today : string) : ExpenseFormData :=
  {| description := ""; amount := ""; category := "Food"; date := today |}.

Definition initial (today : string) : State :=
  {| formData := defaults today; formErrors := ∅ |}.

(** [{...prev, [name]: value}] *)
Definition set_field (prev : ExpenseFormData) (name : FieldName)
    (value : string) : ExpenseFormData :=
  match name with
  | name_description =>
      {| description := value; amount := amount prev;
         category := category prev; date := date prev |}
  | name_amount =>
      {| description := description prev; amount := value;
         category := category prev; date := date prev |}
  | name_category =>
      {| description := description prev; amount := amount prev;
         category := value; date := date prev |}
  | name_date =>
      {| description := description prev; amount := amount prev;
         category := category prev; date := value |}
  end.

(** [handleInputChange] for an event whose target has the given name and
    value. *)
Definition handleInputChange (name : FieldName) (value : string)
    (st : State) : State :=
  {| formData := set_field (formData st) name value;
     formErrors :=
       if truthy (get (formErrors st) (key name))
       then <[key name := None]> (formErrors st)
       else formErrors st |}.

(** The guards of the second, alert-style validation of [handleSubmit]. *)
Definition required_field_missing (data : ExpenseFormData) : bool :=
  JS.not_string (JS.trim (description data))
  || JS.not_string (amount data)
  || JS.not_string (date data).

Definition amount_not_positive (data : ExpenseFormData) : bool :=
  JS.le (JS.parseFloat (amount data)) JS.zero.

Definition payload_of (data : ExpenseFormData) : Payload :=
  {| payload_description := JS.trim (description data);
     payload_amount := JS.parseFloat (amount data);
     payload_category := category data;
     payload_date := date data |}.

(** [handleSubmit]; [today] is the date read from the clock by the reset. *)
Definition handleSubmit (today : string) (st : State) : State * list Effect :=
  let validation := validateExpenseForm (formData st) in
  if negb (isValid validation) then
    ({| formData := formData st; formErrors := errors validation |},
     [preventDefault])
  else if required_field_missing (formData st) then
    ({| formData := formData st; formErrors := ∅ |},
     [preventDefault; alert "Please fill in all required fields"])
  else if amount_not_positive (formData st) then
    ({| formData := formData st; formErrors := ∅ |},
     [preventDefault; alert "Amount must be greater than 0"])
  else
    ({| formData := defaults today; formErrors := ∅ |},
     [preventDefault; onSubmit (payload_of (formData st))]).

(** The [option] values of the category [select], in order. *)
Definition category_options : list string :=
  ["Food"; "Transportation"; "Entertainment"; "Shopping"; "Other"].

(** The events of a session with the form, and the run of a session. *)
Inductive Event : Type :=
  | change (name : FieldName) (value : string)
  | submit (today : string).

Definition step (ev : Event) (st : State) : State * list Effect :=
  match ev with
  | change name value => (handleInputChange name value st, [])
  | submit today => handleSubmit today st
  end.

Fixpoint run (evs : list Event) (st : State) : State * list Effect :=
  match evs with
  | [] => (st, [])
  | ev :: evs' =>
      let '(st1, out1) := step ev st in
      let '(st2, out2) := run evs' st1 in
      (st2, out1 ++ out2)
  end.

(** The arguments of the calls of [onSubmit] among some effects. *)
Definition submitted (out : list Effect) : list Payload :=
  omap (fun eff => match eff with onSubmit p => Some p | _ => None end) out.

End ExpenseForm.

(** ** ExpenseList: the collection view *)

Module ExpenseList.

(** [type Expense = ExpenseCardProps] *)
Abbreviation Expense := ExpenseCard.ExpenseCardProps.

(** [type FilterOption = 'All' | ExpenseCategory], as the string held by
    the state [filterCategory]. *)
Definition FilterOption : Type := string.

(** The [option] values of the filter [select], in order. *)
Definition filter_options : list string :=
  ["All"; "Food"; "Transportation"; "Entertainment"; "Other"].

(** The array [filteredExpenses]: the array of the props itself when the
    filter is ["All"], a new array otherwise. *)
Definition filteredExpenses (filterCategory : FilterOption) (expenses : JS.ref)
    (h : JS.store Expense) : JS.store Expense * JS.ref :=
  if String.eqb filterCategory "All" then (h, expenses)
  else
    JS.Array_filter
      (fun expense => String.eqb (ExpenseCard.category expense) filterCategory)
      expenses h.

(** The elements of [filteredExpenses], the visible subset. *)
Definition visible (filterCategory : FilterOption) (expenses : JS.ref)
    (h : JS.store Expense) : list Expense :=
  let '(h', filtered) := filteredExpenses filterCategory expenses h in
  JS.elements_at h' filtered.

Definition filteredTotal (filtered : JS.ref) (h : JS.store Expense) : JS.number :=
  JS.Array_reduce (fun sum expense => JS.add sum (ExpenseCard.amount expense))
    JS.zero filtered h.

(** One rendered [ExpenseCard]: its key and the props spread into it. *)
Record Card : Type := {
  card_key : JS.number;
  card_props : Expense
}.

Inductive CardArea : Type :=
  | placeholder (message : string)
  | cards (children : list Card).

(** What a render shows: the total and the count of the summary line
    [Total: $<total> (<count> expenses)], and the card area. *)
Record View : Type := {
  total : string;
  count : nat;
  card_area : CardArea
}.

(** The render of the component with props [expenses] and state
    [filterCategory]. *)
Definition render (filterCategory : FilterOption) (expenses : JS.ref)
    (h : JS.store Expense) : JS.store Expense * View :=
  let '(h', filtered) := filteredExpenses filterCategory expenses h in
  let filteredTotal := filteredTotal filtered h' in
  (h',
   {| total := JS.toFixed filteredTotal 2;
      count := JS.Array_length filtered h';
      card_area :=
        if (JS.Array_length filtered h' =? 0)%nat
        then placeholder "No expenses found. Add some expenses to get started!"
        else
          cards
            (JS.Array_map
               (fun expense =>
                  {| card_key := ExpenseCard.id expense; card_props := expense |})
               filtered h') |}).

(** A render of an array literal: the collection is put in an empty store
    first. *)
Definition render_of (filterCategory : FilterOption) (expenses : list Expense)
    : View :=
  let '(h, r) := JS.alloc ∅ expenses in
  snd (render filterCategory r h).

End ExpenseList.

(** ** Notions of the specification *)

Module Spec.

Import ExpenseForm.

(** The four validation rules, one per field: whether the draft breaks the
    rule, and the message of the rule. *)
Definition violates (name : FieldName) (data : ExpenseFormData) : bool :=
  match name with
  | name_description => JS.is_empty (JS.trim (description data))
  | name_amount =>
      let a := JS.parseFloat (amount data) in
      JS.isNaN a || JS.le a JS.zero
  | name_category => JS.is_empty (category data)
  | name_date => JS.is_empty (date data)
  end.

Definition message (name : FieldName) : string :=
  match name with
  | name_description => "Description is required"
  | name_amount => "Amount must be a positive number"
  | name_category => "Category is required"
  | name_date => "Date is required"
  end.

Definition fields : list FieldName :=
  [name_description; name_amount; name_category; name_date].

Definition violated (data : ExpenseFormData) : list FieldName :=
  List.filter (fun name => violates name data) fields.

(** The entries the rules broken by a draft put in the error map. *)
Definition entries (data : ExpenseFormData) : list (string * option string) :=
  (fun name => (key name, Some (message name))) <$> violated data.

(** The number of entries of a collection in a category. *)
Fixpoint count_in (c : string) (expenses : list ExpenseList.Expense) : nat :=
  match expenses with
  | [] => 0%nat
  | e :: rest =>
      if String.eqb (ExpenseCard.category e) c
      then S (count_in c rest)
      else count_in c rest
  end.

(** The sum of the amounts of some entries: they are added one by one, in
    order, to zero. *)
Definition sum_amounts (expenses : list ExpenseList.Expense) : JS.number :=
  fold_left (fun sum e => JS.add sum (ExpenseCard.amount e)) expenses JS.zero.

Definition all_digits (l : list ascii) : Prop :=
  Forall (fun c => JS.is_digit c = true) l.

(** A decimal numeral with exactly [f] digits after the point: an optional
    minus sign, at least one digit, a point and [f] digits. *)
Fixpoint decimals_after_digits (f : nat) (s : string) : bool :=
  match s with
  | EmptyString => false
  | String c r =>
      JS.is_digit c &&
      match r with
      | String "."%char frac =>
          (String.length frac =? f)%nat
          && forallb JS.is_digit (list_ascii_of_string frac)
      | _ => decimals_after_digits f r
      end
  end.

Definition has_decimals (f : nat) (s : string) : bool :=
  match s with
  | String "-"%char r => decimals_after_digits f r
  | _ => decimals_after_digits f s
  end.

(** The numbers for which [toFixed] writes fixed-point notation: the zeros
    and the finite numbers below [10 ^ 21] in magnitude. *)
Definition fixed_range (x : JS.number) : bool :=
  match x with
  | S754_zero _ => true
  | S754_finite _ m e => negb (JS.ge_pow10 m e 21)
  | _ => false
  end.

(** Drafts and collections of the scenarios. *)

Definition coffee : ExpenseFormData :=
  {| description := "Coffee"; amount := "4.50"; category := "Food";
     date := "2024-01-05" |}.

Definition blank_description : ExpenseFormData :=
  {| description := "  "; amount := "10"; category := "Food";
     date := "2024-01-05" |}.

Definition negative_amount : ExpenseFormData :=
  {| description := "Coffee"; amount := "-3"; category := "Food";
     date := "2024-01-05" |}.

Definition nothing_filled : ExpenseFormData :=
  {| description := ""; amount := ""; category := ""; date := "" |}.

Definition expense (id : string) (description : string) (amount : string)
    (category : string) (date : string) : ExpenseList.Expense :=
  {| ExpenseCard.id := JS.lit id;
     ExpenseCard.description := description;
     ExpenseCard.amount := JS.lit amount;
     ExpenseCard.category := category;
     ExpenseCard.date := date;
     ExpenseCard.highlighted := None;
     ExpenseCard.showCategory := None |}.

Definition lunch : ExpenseList.Expense :=
  expense "1" "Lunch" "12.50" "Food" "2024-01-05".

Definition stamps : ExpenseList.Expense :=
  expense "2" "Stamps" "7.25" "Other" "2024-01-06".

Definition bailout : ExpenseFormData :=
  {| description := "Bailout"; amount := "1e21"; category := "Other";
     date := "2024-01-05" |}.

(** The entry an owner of the collection makes of a payload of the form. *)
Definition entry_of (id : string) (p : Payload) : ExpenseList.Expense :=
  {| ExpenseCard.id := JS.lit id;
     ExpenseCard.description := payload_description p;
     ExpenseCard.amount := payload_amount p;
     ExpenseCard.category := payload_category p;
     ExpenseCard.date := payload_date p;
     ExpenseCard.highlighted := None;
     ExpenseCard.showCategory := None |}.

Definition taxi_edits : list (FieldName * string) :=
  [(name_description, " Taxi "); (name_amount, "23.8");
   (name_category, "Transportation")].

End Spec.

(** ** Notions of sessions with the form *)

Module Session.

Import ExpenseForm.

#[global] Instance FieldName_eq_dec : EqDecision FieldName.
Proof. solve_decision. Defined.

(** A string of white space only. *)
Fixpoint blank (s : string) : bool :=
  match s with
  | EmptyString => true
  | String c r => JS.is_white_space c && blank r
  end.

(** [data[name]] *)
Definition field (name : FieldName) (data : ExpenseFormData) : string :=
  match name with
  | name_description => description data
  | name_amount => amount data
  | name_category => category data
  | name_date => date data
  end.

(** The value of the last edit of a field among some edits, if any. *)
Fixpoint last_write (name : FieldName) (edits : list (FieldName * string))
    : option string :=
  match edits with
  | [] => None
  | (n, v) :: rest =>
      match last_write name rest with
      | Some w => Some w
      | None => if decide (n = name) then Some v else None
      end
  end.

(** The keys of the fields some edits touch. *)
Definition edited (edits : list (FieldName * string)) : list string :=
  key <$> edits.*1.

(** An event the rendered form can raise: the category [select] only
    yields the values of its options. *)
Definition offered (ev : Event) : Prop :=
  match ev with
  | change name_category value => value ∈ category_options
  | _ => True
  end.

(** A payload fit for an expense: a description that is not empty and has
    no white space around it, an amount above zero, a category and a date. *)
Definition acceptable (p : Payload) : Prop :=
  payload_description p <> ""
  /\ JS.trim (payload_description p) = payload_description p
  /\ JS.lt JS.zero (payload_amount p) = true
  /\ payload_category p <> ""
  /\ payload_date p <> "".

(** An error map whose keys are field names, each bound to [undefined] or
    to the message of the rule of its field. *)
Definition well_formed (errs : FormErrors) : Prop :=
  forall k v, errs !! k = Some v ->
    exists name, k = key name /\ (v = None \/ v = Some (Spec.message name)).

Definition is_submit (ev : Event) : bool :=
  match ev with
  | submit _ => true
  | change _ _ => false
  end.

Definition is_preventDefault (eff : Effect) : bool :=
  match eff with
  | preventDefault => true
  | _ => false
  end.

Definition is_alert (eff : Effect) : bool :=
  match eff with
  | alert _ => true
  | _ => false
  end.

(** The draft with its description trimmed. *)
Definition with_trimmed_description (data : ExpenseFormData) : ExpenseFormData :=
  set_field data name_description (JS.trim (description data)).

End Session.

(** ** ExpenseCard and ExpenseList: what is rendered and clicked *)

Module Rendering.

(** A click on the delete button of a card: the propagation of the event is
    stopped, and a callback may be called with an id. *)
Inductive ClickEffect (D : Type) : Type :=
  | stopPropagation
  | call (callback : D) (id : JS.number).

Arguments stopPropagation {D}.
Arguments call {D} callback id.

(** The props of a card: the entry, and the callback [onDelete] when one is
    given. *)
Record CardProps (D : Type) : Type := {
  entry : ExpenseCard.ExpenseCardProps;
  onDelete : option D
}.

Arguments entry {D} _.
Arguments onDelete {D} _.

(** The rendered [article]: its class, the category label when shown, the
    [dateTime] attribute and the text of the [time] element, the heading, the
    amount, and what a click on the delete button does when there is one. *)
Record Article (D : Type) : Type := {
  className : string;
  category_label : option string;
  dateTime : string;
  date_text : string;
  heading : string;
  amount_text : string;
  delete_button : option (list (ClickEffect D))
}.

Arguments className {D} _.
Arguments category_label {D} _.
Arguments dateTime {D} _.
Arguments date_text {D} _.
Arguments heading {D} _.
Arguments amount_text {D} _.
Arguments delete_button {D} _.

Section Components.

Context {D : Type}.

(** The two formatters of the platform, [Intl.NumberFormat('en-US', {style:
    'currency', currency: 'USD'}).format] and [new
    Date(_).toLocaleDateString('en-US', _)], are left open. *)
Variable formatCurrency : JS.number -> string.
Variable formatDate : string -> string.

(** [handleDelete] of a card. *)
Definition handleDelete (props : CardProps D) : list (ClickEffect D) :=
  stopPropagation ::
  match onDelete props with
  | Some callback => [call callback (ExpenseCard.id (entry props))]
  | None => []
  end.

(** The component [ExpenseCard]. *)
Definition ExpenseCard (props : CardProps D) : Article D :=
  let highlighted := default false (ExpenseCard.highlighted (entry props)) in
  let showCategory := default true (ExpenseCard.showCategory (entry props)) in
  {| className :=
       "expense-card " +:+
       (if highlighted then "expense-card---highlighted" else "");
     category_label :=
       if showCategory then Some (ExpenseCard.category (entry props)) else None;
     dateTime := ExpenseCard.date (entry props);
     date_text := formatDate (ExpenseCard.date (entry props));
     heading := ExpenseCard.description (entry props);
     amount_text := formatCurrency (ExpenseCard.amount (entry props));
     delete_button :=
       match onDelete props with
       | Some _ => Some (handleDelete props)
       | None => None
       end |}.

(** The cards of the card area of [ExpenseList], with [onDeleteExpense]
    passed on to each of them; no card when the placeholder is shown. *)
Definition ExpenseList_cards (onDeleteExpense : option D)
    (filterCategory : ExpenseList.FilterOption) (expenses : JS.ref)
    (h : JS.store ExpenseList.Expense) : list (Article D) :=
  match ExpenseList.card_area
          (snd (ExpenseList.render filterCategory expenses h)) with
  | ExpenseList.cards children =>
      (fun c =>
         ExpenseCard {| entry := ExpenseList.card_props c;
                        onDelete := onDeleteExpense |}) <$> children
  | ExpenseList.placeholder _ => []
  end.

End Components.

(** [handleCategoryChange] for an event whose target has the given value. *)
Definition handleCategoryChange (value : string)
    (filterCategory : ExpenseList.FilterOption) : ExpenseList.FilterOption :=
  value.

(** The filter after some changes of the filter control, in order. *)
Definition select_run (values : list string)
    (filterCategory : ExpenseList.FilterOption) : ExpenseList.FilterOption :=
  fold_left (fun current value => handleCategoryChange value current)
    values filterCategory.

End Rendering.

(** * Properties *)

(** ** Numbers and strings *)

Section BuiltinFacts.

Lemma is_empty_true (s : string) : JS.is_empty s = true <-> s = "".
Proof. destruct s; simpl; split; congruence. Qed.

Lemma is_empty_false (s : string) : JS.is_empty s = false <-> s <> "".
Proof. destruct s; simpl; split; congruence. Qed.

(** A number is above zero exactly when it is neither [NaN] nor at most
    zero: the test of the validation is the negation of [0 < x]. *)
Lemma positive_number (x : JS.number) :
  JS.isNaN x || JS.le x JS.zero = negb (JS.lt JS.zero x).
Proof. destruct x as [s|s| |s m e]; try destruct s; reflexivity. Qed.

Lemma parseFloat_empty_string : JS.parseFloat "" = JS.NaN.
Proof. reflexivity. Qed.

End BuiltinFacts.

(** ** The validation pass *)

Section Validation.

Import ExpenseForm Spec.

Ltac split_rules data :=
  destruct (JS.is_empty (JS.trim (description data))) eqn:Hdescription;
  destruct (JS.isNaN (JS.parseFloat (amount data))
            || JS.le (JS.parseFloat (amount data)) JS.zero) eqn:Hamount;
  destruct (JS.is_empty (category data)) eqn:Hcategory;
  destruct (JS.is_empty (date data)) eqn:Hdate.

Lemma validation_errors (data : ExpenseFormData) :
  errors (validateExpenseForm data) = list_to_map (entries data).
Proof.
  unfold validateExpenseForm, entries, violated, fields, JS.not_string; simpl.
  split_rules data; simpl; apply map_eq; intros k;
    repeat (rewrite lookup_insert; case_decide; subst; simpl); done.
Qed.

#[local] Instance key_inj : Inj (=) (=) key.
Proof. intros [] [] H; simpl in H; congruence. Qed.

Lemma NoDup_fields : NoDup fields.
Proof.
  apply NoDup_ListNoDup. unfold fields.
  repeat constructor; simpl; intuition discriminate.
Qed.

Lemma NoDup_violated (data : ExpenseFormData) : NoDup (violated data).
Proof.
  apply NoDup_ListNoDup, List.NoDup_filter, NoDup_ListNoDup, NoDup_fields.
Qed.

Lemma NoDup_entries_keys (data : ExpenseFormData) : NoDup (entries data).*1.
Proof.
  unfold entries. rewrite <- list_fmap_compose.
  apply (NoDup_fmap_2 key), NoDup_violated.
Qed.

Lemma validation_size (data : ExpenseFormData) :
  size (errors (validateExpenseForm data)) = length (violated data).
Proof.
  rewrite validation_errors, map_size_list_to_map by apply NoDup_entries_keys.
  unfold entries. apply length_fmap.
Qed.

Lemma violated_spec (name : FieldName) (data : ExpenseFormData) :
  name ∈ violated data <-> violates name data = true.
Proof.
  unfold violated. rewrite list_elem_of_In, List.filter_In.
  split; [tauto|]. intros H; split; [|done].
  destruct name; simpl; tauto.
Qed.

Lemma validation_lookup (name : FieldName) (data : ExpenseFormData) :
  errors (validateExpenseForm data) !! key name
  = if violates name data then Some (Some (message name)) else None.
Proof.
  rewrite validation_errors.
  destruct (violates name data) eqn:Hv.
  - apply elem_of_list_to_map_1; [apply NoDup_entries_keys|].
    unfold entries. apply list_elem_of_fmap. exists name.
    split; [done|]. by apply violated_spec.
  - apply not_elem_of_list_to_map_1. unfold entries.
    rewrite <- list_fmap_compose. intros (n & Hn & Hin)%list_elem_of_fmap.
    simpl in Hn. apply key_inj in Hn as <-.
    apply violated_spec in Hin. congruence.
Qed.

Lemma isValid_size (data : ExpenseFormData) :
  isValid (validateExpenseForm data)
  = (size (errors (validateExpenseForm data)) =? 0)%nat.
Proof.
  unfold validateExpenseForm at 1; simpl. unfold Object_keys.
  rewrite length_fmap, length_map_to_list. reflexivity.
Qed.

Lemma isValid_violated (data : ExpenseFormData) :
  isValid (validateExpenseForm data) = true <-> violated data = [].
Proof.
  rewrite isValid_size, validation_size, Nat.eqb_eq.
  apply length_zero_iff_nil.
Qed.

Lemma violated_nil (data : ExpenseFormData) :
  violated data = [] <-> forall name, violates name data = false.
Proof.
  split.
  - intros H name. destruct (violates name data) eqn:Hv; [|done].
    apply violated_spec in Hv. rewrite H in Hv. by apply elem_of_nil in Hv.
  - intros H. unfold violated, fields. cbn [List.filter].
    by rewrite !H.
Qed.

(** The four conditions of an acceptable draft, as the rules see them. *)
Lemma acceptable_violated (data : ExpenseFormData) :
  JS.trim (description data) <> "" ->
  JS.lt JS.zero (JS.parseFloat (amount data)) = true ->
  category data <> "" ->
  date data <> "" ->
  violated data = [].
Proof.
  intros Hd Ha Hc Ht. apply violated_nil. intros []; simpl.
  - by apply is_empty_false.
  - by rewrite positive_number, Ha.
  - by apply is_empty_false.
  - by apply is_empty_false.
Qed.

Lemma category_present (c : string) : In c ExpenseCard.ExpenseCategory -> c <> "".
Proof.
  unfold ExpenseCard.ExpenseCategory; simpl.
  intros H ->. repeat destruct H as [H|H]; discriminate || done.
Qed.

Lemma isValid_no_errors (data : ExpenseFormData) :
  isValid (validateExpenseForm data) = true
  <-> errors (validateExpenseForm data) = ∅.
Proof. rewrite isValid_size, Nat.eqb_eq. apply map_size_empty_iff. Qed.

(** C2. For every draft, the error map of the validation pass has an entry
    for exactly the fields whose rule the draft breaks, each with the message
    of its rule: the four rules are evaluated independently. In particular
    the map has as many entries as there are broken rules, and a draft that
    breaks one rule only gets the one-entry map keyed to that field. *)
Theorem validation_reports_exactly_the_violated_rules (data : ExpenseFormData) :
  (forall name,
     errors (validateExpenseForm data) !! key name
     = if violates name data then Some (Some (message name)) else None)
  /\ errors (validateExpenseForm data) = list_to_map (entries data)
  /\ size (errors (validateExpenseForm data)) = length (violated data)
  /\ (forall name,
        violated data = [name] ->
        errors (validateExpenseForm data)
        = {[ key name := Some (message name) ]}).
Proof.
  split; [|split; [|split]].
  - intros name. apply validation_lookup.
  - apply validation_errors.
  - apply validation_size.
  - intros name H. rewrite validation_errors. unfold entries. rewrite H.
    reflexivity.
Qed.

Lemma validation_reports_exactly_the_violated_rules_witness :
  violated blank_description = [name_description]
  /\ errors (validateExpenseForm blank_description)
     = {[ "description" := Some "Description is required" ]}.
Proof.
  split; [reflexivity|].
  exact (proj2 (proj2 (proj2
    (validation_reports_exactly_the_violated_rules blank_description)))
    name_description eq_refl).
Defined.

(** C10. The two results of the validation pass agree: [isValid] is true
    exactly when the error map has no entry, which is exactly when the draft
    breaks none of the four rules. *)
Theorem isValid_iff_no_error_entry (data : ExpenseFormData) :
  (isValid (validateExpenseForm data) = true
   <-> errors (validateExpenseForm data) = ∅)
  /\ (errors (validateExpenseForm data) = ∅
      <-> forall name, violates name data = false).
Proof.
  split; [apply isValid_no_errors|].
  rewrite <- isValid_no_errors, isValid_violated. apply violated_nil.
Qed.

End Validation.

(** ** Submission *)

Section Submission.

Import ExpenseForm Spec.

Lemma handleSubmit_rejected (today : string) (st : State) :
  isValid (validateExpenseForm (formData st)) = false ->
  handleSubmit today st
  = ({| formData := formData st;
        formErrors := errors (validateExpenseForm (formData st)) |},
     [preventDefault]).
Proof. intros H. unfold handleSubmit. rewrite H. reflexivity. Qed.

(** A draft that passes the validation passes the two guards of the second
    validation as well. *)
Lemma valid_passes_guards (data : ExpenseFormData) :
  isValid (validateExpenseForm data) = true ->
  required_field_missing data = false /\ amount_not_positive data = false.
Proof.
  intros H. apply isValid_violated in H.
  pose proof (proj1 (violated_nil data) H) as Hv.
  pose proof (Hv name_description) as Hd.
  pose proof (Hv name_amount) as Ha.
  pose proof (Hv name_date) as Ht.
  simpl in Hd, Ha, Ht. apply orb_false_iff in Ha as [Hnan Hle].
  unfold required_field_missing, amount_not_positive, JS.not_string.
  rewrite Hd, Ht, Hle. split; [|reflexivity].
  destruct (amount data); [|reflexivity].
  rewrite parseFloat_empty_string in Hnan. discriminate.
Qed.

Lemma handleSubmit_accepted (today : string) (st : State) :
  isValid (validateExpenseForm (formData st)) = true ->
  handleSubmit today st
  = ({| formData := defaults today; formErrors := ∅ |},
     [preventDefault; onSubmit (payload_of (formData st))]).
Proof.
  intros H. destruct (valid_passes_guards _ H) as [H1 H2].
  unfold handleSubmit. rewrite H, H1, H2. reflexivity.
Qed.

(** Field edits call nothing. *)
Lemma run_changes (edits : list (FieldName * string)) (st : State) :
  snd (run (uncurry change <$> edits) st) = [].
Proof.
  revert st. induction edits as [|[name value] edits IH]; intros st; [done|].
  simpl. specialize (IH (handleInputChange name value st)).
  destruct (run _ _) as [st2 out2]. simpl in *. by subst.
Qed.

Lemma run_app (evs1 evs2 : list Event) (st : State) :
  run (evs1 ++ evs2) st
  = let '(st1, out1) := run evs1 st in
    let '(st2, out2) := run evs2 st1 in
    (st2, out1 ++ out2).
Proof.
  revert st. induction evs1 as [|ev evs1 IH]; intros st; simpl.
  - by destruct (run evs2 st).
  - destruct (step ev st) as [st1 out1]. rewrite IH.
    destruct (run evs1 st1) as [st2 out2].
    destruct (run evs2 st2) as [st3 out3]. by rewrite app_assoc.
Qed.

(** C1. A draft with a description that is not empty once trimmed, an
    amount text that parses to a number above zero, a category of the
    enumeration and a date that is not empty has an empty error map, and its
    submission calls [onSubmit] exactly once, with the trimmed description,
    the parsed amount, and the category and the date as they are. *)
Theorem acceptable_draft_is_submitted
    (data : ExpenseFormData) (today : string) (shown : FormErrors) :
  JS.trim (description data) <> "" ->
  JS.lt JS.zero (JS.parseFloat (amount data)) = true ->
  In (category data) ExpenseCard.ExpenseCategory ->
  date data <> "" ->
  errors (validateExpenseForm data) = ∅
  /\ isValid (validateExpenseForm data) = true
  /\ snd (handleSubmit today {| formData := data; formErrors := shown |})
     = [preventDefault;
        onSubmit {| payload_description := JS.trim (description data);
                    payload_amount := JS.parseFloat (amount data);
                    payload_category := category data;
                    payload_date := date data |}]
  /\ submitted
       (snd (handleSubmit today {| formData := data; formErrors := shown |}))
     = [ {| payload_description := JS.trim (description data);
            payload_amount := JS.parseFloat (amount data);
            payload_category := category data;
            payload_date := date data |} ].
Proof.
  intros Hd Ha Hc Ht.
  assert (Hv : isValid (validateExpenseForm data) = true).
  { apply isValid_violated, acceptable_violated; auto using category_present. }
  split; [by apply isValid_no_errors|].
  split; [exact Hv|].
  rewrite handleSubmit_accepted by exact Hv. split; reflexivity.
Qed.

Lemma acceptable_draft_is_submitted_witness :
  snd (handleSubmit "2024-01-06" {| formData := coffee; formErrors := ∅ |})
  = [preventDefault;
     onSubmit {| payload_description := "Coffee";
                 payload_amount := JS.lit "4.50";
                 payload_category := "Food";
                 payload_date := "2024-01-05" |}].
Proof.
  refine (proj1 (proj2 (proj2
    (acceptable_draft_is_submitted coffee "2024-01-06" ∅ _ _ _ _)))).
  - discriminate.
  - vm_compute. reflexivity.
  - simpl. auto.
  - discriminate.
Defined.

(** C3. When a draft breaks at least one rule, the submit attempt stores
    the whole error map of the validation, does not call [onSubmit], and
    leaves every field of the draft as it is. *)
Theorem rejected_draft_is_kept (today : string) (st : State) :
  (exists name, violates name (formData st) = true) ->
  fst (handleSubmit today st)
  = {| formData := formData st;
       formErrors := errors (validateExpenseForm (formData st)) |}
  /\ formErrors (fst (handleSubmit today st)) <> ∅
  /\ submitted (snd (handleSubmit today st)) = []
  /\ formData (fst (handleSubmit today st)) = formData st.
Proof.
  intros [name Hname].
  assert (Hv : isValid (validateExpenseForm (formData st)) = false).
  { apply not_true_is_false. rewrite isValid_violated, violated_nil.
    intros H. specialize (H name). congruence. }
  rewrite handleSubmit_rejected by exact Hv. simpl.
  repeat split. intros He%isValid_no_errors. congruence.
Qed.

Lemma rejected_draft_is_kept_witness :
  fst (handleSubmit "2024-01-06"
         {| formData := blank_description; formErrors := ∅ |})
  = {| formData := blank_description;
       formErrors := errors (validateExpenseForm blank_description) |}
  /\ submitted
       (snd (handleSubmit "2024-01-06"
               {| formData := blank_description; formErrors := ∅ |})) = [].
Proof.
  pose proof (rejected_draft_is_kept "2024-01-06"
                {| formData := blank_description; formErrors := ∅ |}
                (ex_intro _ name_description eq_refl)) as H.
  split; [exact (proj1 H) | exact (proj1 (proj2 (proj2 H)))].
Defined.

(** C7. The alert-style block of the submit handler is dead code: on a
    draft for which the validation returns [isValid = true], the guard of
    each alert is false, so no alert is raised and the submission reaches
    [onSubmit]. *)
Theorem alert_validation_is_unreachable (data : ExpenseFormData) :
  isValid (validateExpenseForm data) = true ->
  required_field_missing data = false
  /\ amount_not_positive data = false
  /\ forall today shown,
       snd (handleSubmit today {| formData := data; formErrors := shown |})
       = [preventDefault; onSubmit (payload_of data)].
Proof.
  intros H. destruct (valid_passes_guards data H) as [H1 H2].
  repeat split; try assumption.
  intros today shown. by rewrite handleSubmit_accepted.
Qed.

Lemma alert_validation_is_unreachable_witness :
  required_field_missing coffee = false /\ amount_not_positive coffee = false.
Proof.
  assert (H : isValid (validateExpenseForm coffee) = true)
    by (vm_compute; reflexivity).
  pose proof (alert_validation_is_unreachable coffee H) as G.
  split; [exact (proj1 G) | exact (proj1 (proj2 G))].
Defined.

(** C9. A submission that the validation accepts clears the error map and
    resets the draft to an empty description, an empty amount text, the
    category Food and the date of the day. Hence, when a first accepted
    draft is submitted, the form is edited into a second acceptable draft and
    submitted again, [onSubmit] is called twice, once with the payload of
    each draft, and the draft is the default one in between. *)
Theorem accepted_submission_resets_the_form
    (st : State) (today today' : string) (edits : list (FieldName * string)) :
  violated (formData st) = [] ->
  violated
    (formData (fst (run (uncurry change <$> edits)
                      (fst (handleSubmit today st))))) = [] ->
  fst (handleSubmit today st)
  = {| formData :=
         {| description := ""; amount := ""; category := "Food";
            date := today |};
       formErrors := ∅ |}
  /\ submitted (snd (handleSubmit today st)) = [payload_of (formData st)]
  /\ submitted
       (snd (run (submit today :: (uncurry change <$> edits) ++ [submit today'])
               st))
     = [payload_of (formData st);
        payload_of
          (formData (fst (run (uncurry change <$> edits)
                            (fst (handleSubmit today st)))))].
Proof.
  intros H1%isValid_violated H2%isValid_violated.
  rewrite handleSubmit_accepted in * by exact H1. simpl fst in *.
  split; [reflexivity|]. split; [reflexivity|].
  cbn [run step]. rewrite handleSubmit_accepted by exact H1.
  rewrite run_app. pose proof (run_changes edits
    {| formData := defaults today; formErrors := ∅ |}) as Hout.
  destruct (run (uncurry change <$> edits) _) as [st2 out2].
  simpl in Hout, H2. subst out2. cbn [run step].
  rewrite handleSubmit_accepted by exact H2. reflexivity.
Qed.

Lemma accepted_submission_resets_the_form_witness :
  submitted
    (snd (run (submit "2024-01-06"
               :: (uncurry change <$> taxi_edits) ++ [submit "2024-01-07"])
            {| formData := coffee; formErrors := ∅ |}))
  = [ {| payload_description := "Coffee"; payload_amount := JS.lit "4.50";
         payload_category := "Food"; payload_date := "2024-01-05" |};
      {| payload_description := "Taxi"; payload_amount := JS.lit "23.8";
         payload_category := "Transportation";
         payload_date := "2024-01-06" |} ].
Proof.
  refine (proj2 (proj2
    (accepted_submission_resets_the_form
       {| formData := coffee; formErrors := ∅ |}
       "2024-01-06" "2024-01-07" taxi_edits _ _))).
  - vm_compute. reflexivity.
  - vm_compute. reflexivity.
Defined.

End Submission.

(** ** Editing a field *)

Section Editing.

Import ExpenseForm Spec.

(** C8. Editing a field clears the error of that field only: the entry of
    every other key of the error map is what it was, the edited field shows
    no error afterwards, and when the edited field had no error the error
    map is not changed at all. *)
Theorem editing_clears_only_the_edited_field
    (name : FieldName) (value : string) (st : State) :
  (forall k, k <> key name ->
     formErrors (handleInputChange name value st) !! k = formErrors st !! k)
  /\ truthy (get (formErrors (handleInputChange name value st)) (key name))
     = false
  /\ (truthy (get (formErrors st) (key name)) = false ->
      formErrors (handleInputChange name value st) = formErrors st).
Proof.
  unfold handleInputChange; simpl.
  destruct (truthy (get (formErrors st) (key name))) eqn:Hshown.
  - split; [|split].
    + intros k Hk. by rewrite lookup_insert_ne.
    + unfold get. by rewrite lookup_insert_eq.
    + discriminate.
  - auto.
Qed.

Lemma editing_clears_only_the_edited_field_witness :
  formErrors
    (handleInputChange name_amount "12"
       {| formData := nothing_filled;
          formErrors := errors (validateExpenseForm nothing_filled) |})
    !! "date"
  = Some (Some "Date is required")
  /\ formErrors
       (handleInputChange name_amount "12"
          {| formData := coffee; formErrors := ∅ |}) = ∅.
Proof.
  split.
  - rewrite (proj1 (editing_clears_only_the_edited_field name_amount "12"
       {| formData := nothing_filled;
          formErrors := errors (validateExpenseForm nothing_filled) |}) "date")
      by discriminate.
    vm_compute. reflexivity.
  - exact (proj2 (proj2 (editing_clears_only_the_edited_field name_amount "12"
       {| formData := coffee; formErrors := ∅ |})) eq_refl).
Defined.

End Editing.

(** ** The category enumeration *)

Section Categories.

(** The category selector of the form offers the enumeration, verbatim. *)
Lemma category_options_enumeration :
  ExpenseForm.category_options = ExpenseCard.ExpenseCategory.
Proof. reflexivity. Qed.

(** C6. The filter control of the collection view does not offer every
    member of the enumeration: Shopping, a member that the category selector
    of the form offers, is not among its options. *)
Theorem filter_control_omits_Shopping :
  In "Shopping" ExpenseCard.ExpenseCategory
  /\ In "Shopping" ExpenseForm.category_options
  /\ ~ In "Shopping" ExpenseList.filter_options
  /\ ExpenseList.filter_options
     = "All" :: List.filter (fun c => negb (String.eqb c "Shopping"))
                  ExpenseCard.ExpenseCategory.
Proof.
  repeat split; try (simpl; tauto).
  simpl. intros H. repeat destruct H as [H|H]; discriminate || done.
Qed.

End Categories.

(** ** Fixed-point notation *)

Section FixedPoint.

Import Spec.

Lemma all_digits_forallb (l : list ascii) :
  all_digits l -> forallb JS.is_digit l = true.
Proof.
  induction 1 as [|c l Hc _ IH]; [reflexivity|].
  simpl. by rewrite Hc, IH.
Qed.

Lemma length_string_of_list_ascii (l : list ascii) :
  String.length (string_of_list_ascii l) = length l.
Proof. induction l as [|c l IH]; simpl; congruence. Qed.

Lemma string_of_uint_digits (u : Decimal.uint) :
  all_digits (list_ascii_of_string (NilEmpty.string_of_uint u)).
Proof. induction u; simpl; constructor; done. Qed.

Lemma digits_of_all_digits (n : N) : all_digits (JS.digits_of n).
Proof.
  unfold JS.digits_of, NilZero.string_of_uint.
  destruct (N.to_uint n); try apply string_of_uint_digits.
  repeat constructor.
Qed.

Lemma digits_of_not_nil (n : N) : JS.digits_of n <> [].
Proof.
  unfold JS.digits_of, NilZero.string_of_uint.
  destruct (N.to_uint n); discriminate.
Qed.

(** Digits, a point and digits again make a numeral with as many decimals
    as there are digits after the point. *)
Lemma point_between_digits (a b : list ascii) :
  a <> [] -> all_digits a -> all_digits b ->
  decimals_after_digits (length b) (string_of_list_ascii (a ++ "."%char :: b))
  = true.
Proof.
  intros Ha Hda Hdb. induction Hda as [|c a Hc Hda IH]; [done|].
  cbn [app string_of_list_ascii decimals_after_digits]. rewrite Hc. simpl andb.
  destruct a as [|c' a].
  - cbn [app string_of_list_ascii].
    rewrite length_string_of_list_ascii, Nat.eqb_refl,
      list_ascii_of_string_of_list_ascii.
    by apply all_digits_forallb.
  - specialize (IH ltac:(discriminate)).
    cbn [app string_of_list_ascii] in *.
    inversion Hda as [|? ? Hc' _]; subst.
    destruct (Ascii.eqb_spec c' "."%char) as [->|Hne]; [discriminate Hc'|].
    destruct c' as [[] [] [] [] [] [] [] []]; try exact IH; done.
Qed.

Lemma fixed_point_decimals (n : N) (f : nat) :
  decimals_after_digits (S f) (JS.fixed_point n (S f)) = true.
Proof.
  unfold JS.fixed_point.
  pose proof (digits_of_all_digits n) as Hd.
  pose proof (digits_of_not_nil n) as Hn.
  set (ds := JS.digits_of n) in *.
  set (m := if (length ds <=? S f)%nat then _ else ds).
  assert (Hm : all_digits m).
  { subst m. destruct (length ds <=? S f)%nat; [|done].
    apply Forall_app; split; [|done]. by apply Forall_replicate. }
  assert (Hlen : (S f < length m)%nat).
  { subst m. destruct (Nat.leb_spec (length ds) (S f)); [|lia].
    rewrite length_app, length_replicate.
    destruct ds; [done|]. simpl in *. lia. }
  assert (Hb : length (drop (length m - S f) m) = S f)
    by (rewrite length_drop; lia).
  rewrite <- Hb at 1. apply point_between_digits.
  - intros H%(f_equal length). rewrite length_take in H. simpl in H. lia.
  - by apply Forall_take.
  - by apply Forall_drop.
Qed.

Lemma has_decimals_unsigned (f : nat) (s : string) :
  decimals_after_digits f s = true -> has_decimals f s = true.
Proof.
  intros H. destruct s as [|c s]; [done|].
  destruct (Ascii.eqb_spec c "-"%char) as [->|Hne]; [discriminate H|].
  unfold has_decimals.
  destruct c as [[] [] [] [] [] [] [] []]; try exact H; done.
Qed.

(** In its fixed-point range, [toFixed(2)] writes exactly two decimals. *)
Lemma toFixed_two_decimals (x : JS.number) :
  fixed_range x = true -> has_decimals 2 (JS.toFixed x 2) = true.
Proof.
  destruct x as [s|s| |s m e]; simpl; try discriminate.
  - intros _. reflexivity.
  - intros H%negb_true_iff. rewrite H.
    pose proof (fixed_point_decimals (JS.scaled_nearest m e 2) 1) as Hd.
    destruct s.
    + exact Hd.
    + by apply has_decimals_unsigned.
Qed.

End FixedPoint.

(** ** The collection view *)

Section Collection.

Import ExpenseList Spec.

Lemma alloc_keeps (h : JS.store Expense) (l l' : list Expense) (r : JS.ref) :
  h !! r = Some l -> fst (JS.alloc h l') !! r = Some l.
Proof.
  intros H. unfold JS.alloc; simpl. rewrite lookup_insert_ne; [done|].
  intros <-. apply (is_fresh (dom h)), elem_of_dom. eauto.
Qed.

Lemma alloc_elements (h : JS.store Expense) (l : list Expense) :
  JS.elements_at (fst (JS.alloc h l)) (snd (JS.alloc h l)) = l.
Proof. unfold JS.alloc, JS.elements_at; simpl. by rewrite lookup_insert_eq. Qed.

Lemma filteredExpenses_keeps (sel : FilterOption) (expenses r : JS.ref)
    (h : JS.store Expense) (l : list Expense) :
  h !! r = Some l -> fst (filteredExpenses sel expenses h) !! r = Some l.
Proof.
  intros H. unfold filteredExpenses.
  destruct (String.eqb sel "All"); [done|]. by apply alloc_keeps.
Qed.

Lemma visible_eq (sel : FilterOption) (expenses : JS.ref)
    (h : JS.store Expense) (es : list Expense) :
  h !! expenses = Some es ->
  visible sel expenses h
  = if String.eqb sel "All" then es
    else List.filter (fun e => String.eqb (ExpenseCard.category e) sel) es.
Proof.
  intros H. unfold visible, filteredExpenses.
  destruct (String.eqb sel "All").
  - unfold JS.elements_at. by rewrite H.
  - unfold JS.Array_filter.
    pose proof (alloc_elements h (List.filter
      (fun e => String.eqb (ExpenseCard.category e) sel)
      (JS.elements_at h expenses))) as Ha.
    destruct (JS.alloc h _) as [h' r']. simpl in Ha. rewrite Ha.
    unfold JS.elements_at. by rewrite H.
Qed.

Lemma filter_sublist {A : Type} (p : A -> bool) (l : list A) :
  List.filter p l `sublist_of` l.
Proof.
  induction l as [|x l IH]; simpl; [constructor|].
  destruct (p x); by constructor.
Qed.

Lemma length_filter_category (c : string) (es : list Expense) :
  length (List.filter (fun e => String.eqb (ExpenseCard.category e) c) es)
  = count_in c es.
Proof.
  induction es as [|e es IH]; simpl; [done|].
  destruct (String.eqb (ExpenseCard.category e) c); simpl; congruence.
Qed.

(** C4. The visible subset is the whole collection, in the order given,
    when the selection is All; otherwise it is made of exactly the entries
    whose category is the selection, in their original relative order. Its
    length is the number of matching entries, and deriving it (or rendering
    the whole view) leaves the supplied collection, and every other array,
    as it was. *)
Theorem visible_subset_is_the_filtered_collection
    (h : JS.store Expense) (expenses : JS.ref) (es : list Expense)
    (sel : FilterOption) :
  h !! expenses = Some es ->
  (sel = "All" -> visible sel expenses h = es)
  /\ (sel <> "All" ->
      visible sel expenses h
      = List.filter (fun e => String.eqb (ExpenseCard.category e) sel) es
      /\ forall e, e ∈ visible sel expenses h
                   <-> e ∈ es /\ ExpenseCard.category e = sel)
  /\ visible sel expenses h `sublist_of` es
  /\ length (visible sel expenses h)
     = (if decide (sel = "All") then length es else count_in sel es)
  /\ (forall r l, h !! r = Some l ->
        fst (filteredExpenses sel expenses h) !! r = Some l)
  /\ fst (render sel expenses h) !! expenses = Some es.
Proof.
  intros H. rewrite (visible_eq _ _ _ _ H).
  assert (Hkeeps : forall r l, h !! r = Some l ->
            fst (filteredExpenses sel expenses h) !! r = Some l)
    by (intros r l Hr; by apply filteredExpenses_keeps).
  assert (Hrender : fst (render sel expenses h) !! expenses = Some es).
  { unfold render. specialize (Hkeeps _ _ H).
    by destruct (filteredExpenses _ _ _). }
  destruct (String.eqb_spec sel "All") as [Hsel|Hsel].
  - split; [done|]. split; [done|]. split; [done|].
    rewrite decide_True by done. done.
  - split; [done|]. split; [|split; [|split; [|done]]].
    + intros _. split; [done|]. intros e.
      rewrite !list_elem_of_In, List.filter_In, String.eqb_eq. tauto.
    + apply filter_sublist.
    + rewrite decide_False by done. apply length_filter_category.
Qed.

Lemma visible_subset_is_the_filtered_collection_witness :
  visible "Food" 1%positive {[ 1%positive := [lunch; stamps] ]} = [lunch]
  /\ fst (render "Food" 1%positive {[ 1%positive := [lunch; stamps] ]})
       !! 1%positive
     = Some [lunch; stamps].
Proof.
  pose proof (visible_subset_is_the_filtered_collection
    {[ 1%positive := [lunch; stamps] ]} 1%positive [lunch; stamps] "Food"
    eq_refl) as H.
  split.
  - exact (proj1 (proj1 (proj2 H) ltac:(discriminate))).
  - exact (proj2 (proj2 (proj2 (proj2 (proj2 H))))).
Defined.

Lemma render_eq (sel : FilterOption) (expenses : JS.ref) (h : JS.store Expense) :
  snd (render sel expenses h)
  = {| total := JS.toFixed (sum_amounts (visible sel expenses h)) 2;
       count := length (visible sel expenses h);
       card_area :=
         if (length (visible sel expenses h) =? 0)%nat
         then placeholder "No expenses found. Add some expenses to get started!"
         else cards
                ((fun e => {| card_key := ExpenseCard.id e; card_props := e |})
                   <$> visible sel expenses h) |}.
Proof.
  unfold render, visible. by destruct (filteredExpenses sel expenses h).
Qed.

(** C5, amended. The displayed total is [toFixed(2)] of the sum of the
    amounts of the visible subset, added one by one to zero as numbers; it
    has exactly two decimals whenever that sum is zero or finite and below
    [10 ^ 21] in magnitude. The count is the length of the visible subset.
    When the visible subset is empty the total is 0.00, the count is 0 and
    the card area is the placeholder message; otherwise the card area has one
    card per visible entry, in order. *)
Theorem displayed_total_is_the_formatted_sum
    (h : JS.store Expense) (expenses : JS.ref) (sel : FilterOption) :
  total (snd (render sel expenses h))
  = JS.toFixed (sum_amounts (visible sel expenses h)) 2
  /\ (fixed_range (sum_amounts (visible sel expenses h)) = true ->
      has_decimals 2 (total (snd (render sel expenses h))) = true)
  /\ count (snd (render sel expenses h)) = length (visible sel expenses h)
  /\ (visible sel expenses h = [] ->
      total (snd (render sel expenses h)) = "0.00"
      /\ count (snd (render sel expenses h)) = 0%nat
      /\ card_area (snd (render sel expenses h))
         = placeholder "No expenses found. Add some expenses to get started!")
  /\ (visible sel expenses h <> [] ->
      card_area (snd (render sel expenses h))
      = cards ((fun e => {| card_key := ExpenseCard.id e; card_props := e |})
                 <$> visible sel expenses h)).
Proof.
  rewrite render_eq; simpl. split; [done|]. split; [|split; [done|split]].
  - apply toFixed_two_decimals.
  - intros ->. done.
  - intros Hne. destruct (visible sel expenses h); done.
Qed.

Lemma displayed_total_is_the_formatted_sum_witness :
  has_decimals 2
    (total (snd (render "Food" 1%positive {[ 1%positive := [lunch; stamps] ]})))
  = true
  /\ total (snd (render "Shopping" 1%positive
                   {[ 1%positive := [lunch; stamps] ]})) = "0.00".
Proof.
  split.
  - refine (proj1 (proj2 (displayed_total_is_the_formatted_sum
      {[ 1%positive := [lunch; stamps] ]} 1%positive "Food")) _).
    vm_compute. reflexivity.
  - refine (proj1 (proj1 (proj2 (proj2 (proj2
      (displayed_total_is_the_formatted_sum
         {[ 1%positive := [lunch; stamps] ]} 1%positive "Shopping")))) _)).
    vm_compute. reflexivity.
Defined.

(** C5 as stated fails: the form accepts the amount text 1e21, and a
    collection made of the submitted entry has the total 1e+21, which is
    not a numeral with two decimals. *)
Lemma total_without_two_decimals :
  ExpenseForm.submitted
    (snd (ExpenseForm.handleSubmit "2024-01-06" 
            {| ExpenseForm.formData := bailout; ExpenseForm.formErrors := ∅ |}))
  = [ExpenseForm.payload_of bailout]
  /\ total (render_of "All" [entry_of "1" (ExpenseForm.payload_of bailout)])
     = "1e+21"
  /\ has_decimals 2
       (total (render_of "All" [entry_of "1" (ExpenseForm.payload_of bailout)]))
     = false.
Proof. vm_compute. repeat split. Qed.

End Collection.

(** ** Scenarios *)

Section Scenarios.

Import ExpenseForm ExpenseList Spec.

Example trim_blank : JS.trim "  " = "".
Proof. reflexivity. Qed.

Example trim_keeps_inner_spaces : JS.trim "  a b  " = "a b".
Proof. reflexivity. Qed.

Example parseFloat_prefix : JS.parseFloat " 12.50abc" = JS.lit "12.5".
Proof. vm_compute. reflexivity. Qed.

Example parseFloat_no_number : JS.parseFloat "abc" = JS.NaN.
Proof. reflexivity. Qed.

Example parseFloat_tenth :
  JS.parseFloat "0.1" = S754_finite false 7205759403792794 (-56).
Proof. vm_compute. reflexivity. Qed.

Example parseFloat_underflow : JS.parseFloat "1e-400" = JS.zero.
Proof. vm_compute. reflexivity. Qed.

Example toFixed_half_cent : JS.toFixed (JS.lit "1.005") 2 = "1.00".
Proof. vm_compute. reflexivity. Qed.

Example toFixed_negative : JS.toFixed (JS.lit "-0.001") 2 = "-0.00".
Proof. vm_compute. reflexivity. Qed.

Example toFixed_not_finite :
  JS.toFixed (JS.add (JS.lit "1e308") (JS.lit "1e308")) 2 = "Infinity".
Proof. vm_compute. reflexivity. Qed.

(** Addition rounds: 2 ^ 53 + 1 is 2 ^ 53. *)
Example add_rounds :
  JS.add (JS.lit "9007199254740992") (JS.lit "1") = JS.lit "9007199254740992".
Proof. vm_compute. reflexivity. Qed.

(** A blank description: an error on the description only, no submission. *)
Example scenario_blank_description :
  handleSubmit "2024-01-06" {| formData := blank_description; formErrors := ∅ |}
  = ({| formData := blank_description;
        formErrors := {[ "description" := Some "Description is required" ]} |},
     [preventDefault]).
Proof. vm_compute. reflexivity. Qed.

(** A negative amount: an error on the amount only. *)
Example scenario_negative_amount :
  errors (validateExpenseForm negative_amount)
  = {[ "amount" := Some "Amount must be a positive number" ]}.
Proof. vm_compute. reflexivity. Qed.

(** Every rule broken at once: four entries. *)
Example scenario_nothing_filled :
  size (errors (validateExpenseForm nothing_filled)) = 4%nat
  /\ isValid (validateExpenseForm nothing_filled) = false.
Proof. vm_compute. split; reflexivity. Qed.

(** An edited field stays in the error map, bound to [undefined]. *)
Example scenario_cleared_entry :
  formErrors
    (handleInputChange name_amount "12"
       {| formData := negative_amount;
          formErrors := errors (validateExpenseForm negative_amount) |})
  = {[ "amount" := None ]}.
Proof. vm_compute. reflexivity. Qed.

(** Two entries, filter Food: one card, total 12.50, count 1. *)
Example scenario_filter_Food :
  render_of "Food" [lunch; stamps]
  = {| total := "12.50"; count := 1;
       card_area := cards [ {| card_key := JS.lit "1"; card_props := lunch |} ] |}.
Proof. vm_compute. reflexivity. Qed.

Example scenario_filter_All :
  total (render_of "All" [lunch; stamps]) = "19.75"
  /\ count (render_of "All" [lunch; stamps]) = 2%nat.
Proof. vm_compute. split; reflexivity. Qed.

(** The empty collection: the placeholder, total 0.00, count 0. *)
Example scenario_empty_collection :
  render_of "All" []
  = {| total := "0.00"; count := 0;
       card_area :=
         placeholder "No expenses found. Add some expenses to get started!" |}.
Proof. vm_compute. reflexivity. Qed.

End Scenarios.

(** * Further properties *)

(** ** Trimming *)

Section Trimming.

Import Session.

Lemma trimStart_blank (s : string) : JS.trimStart s = "" <-> blank s = true.
Proof.
  induction s as [|c s IH]; simpl; [done|].
  destruct (JS.is_white_space c); simpl; [exact IH|]. split; discriminate.
Qed.

Lemma trimEnd_blank (s : string) : JS.trimEnd s = "" <-> blank s = true.
Proof.
  induction s as [|c s IH]; simpl; [done|].
  destruct (JS.is_white_space c); simpl.
  - rewrite <- IH. destruct (JS.trimEnd s); simpl; split; congruence.
  - split; discriminate.
Qed.

Lemma trimStart_suffix_blank (s : string) :
  blank s = true -> blank (JS.trimStart s) = true.
Proof. intros H. by apply trimStart_blank in H as ->. Qed.

Lemma blank_trimStart (s : string) : blank (JS.trimStart s) = blank s.
Proof.
  induction s as [|c s IH]; simpl; [done|].
  destruct (JS.is_white_space c) eqn:Hc; simpl; [exact IH|]. by rewrite Hc.
Qed.

Lemma trim_empty_iff_blank (s : string) : JS.trim s = "" <-> blank s = true.
Proof. unfold JS.trim. by rewrite trimEnd_blank, blank_trimStart. Qed.

Lemma trimEnd_idempotent (s : string) : JS.trimEnd (JS.trimEnd s) = JS.trimEnd s.
Proof.
  induction s as [|c s IH]; simpl; [done|].
  destruct (JS.is_white_space c && JS.is_empty (JS.trimEnd s)) eqn:Hc;
    [done|].
  simpl. by rewrite IH, Hc.
Qed.

Lemma trimStart_head (c : ascii) (s : string) :
  JS.is_white_space c = false -> JS.trimStart (String c s) = String c s.
Proof. intros H. simpl. by rewrite H. Qed.

Lemma trimStart_cases (s : string) :
  JS.trimStart s = ""
  \/ exists c r, JS.trimStart s = String c r /\ JS.is_white_space c = false.
Proof.
  induction s as [|c s IH]; simpl; [by left|].
  destruct (JS.is_white_space c) eqn:Hc; [exact IH|]. right; eauto.
Qed.

Lemma trim_idempotent (s : string) : JS.trim (JS.trim s) = JS.trim s.
Proof.
  unfold JS.trim.
  destruct (trimStart_cases s) as [->|(c & r & -> & Hc)]; [done|].
  assert (Hhead : JS.trimEnd (String c r) = String c (JS.trimEnd r))
    by (simpl; by rewrite Hc).
  rewrite Hhead, (trimStart_head _ _ Hc), <- Hhead.
  apply trimEnd_idempotent.
Qed.

Lemma parseFloat_blank (s : string) :
  blank s = true -> JS.parseFloat s = JS.NaN.
Proof.
  intros H%trimStart_blank. unfold JS.parseFloat. by rewrite H.
Qed.

End Trimming.

(** ** Sessions with the form *)

Section Sessions.

Import ExpenseForm Spec Session.

(** The description rule fails exactly on the descriptions made of white
    space only, the empty one among them, and the amount rule fails on
    every amount text made of white space only. *)
Theorem blank_fields_are_rejected (data : ExpenseFormData) :
  (errors (validateExpenseForm data) !! "description"
   = Some (Some "Description is required")
   <-> blank (description data) = true)
  /\ (blank (description data) = false ->
      errors (validateExpenseForm data) !! "description" = None)
  /\ (blank (amount data) = true ->
      errors (validateExpenseForm data) !! "amount"
      = Some (Some "Amount must be a positive number")).
Proof.
  assert (Hd : errors (validateExpenseForm data) !! "description"
               = if JS.is_empty (JS.trim (description data))
                 then Some (Some "Description is required") else None)
    by exact (validation_lookup name_description data).
  assert (Ha : errors (validateExpenseForm data) !! "amount"
               = if JS.isNaN (JS.parseFloat (amount data))
                    || JS.le (JS.parseFloat (amount data)) JS.zero
                 then Some (Some "Amount must be a positive number") else None)
    by exact (validation_lookup name_amount data).
  rewrite Hd, Ha. clear Hd Ha.
  destruct (JS.is_empty (JS.trim (description data))) eqn:He.
  - apply is_empty_true, trim_empty_iff_blank in He.
    rewrite He. split; [done|]. split; [discriminate|].
    intros Hb. by rewrite (parseFloat_blank _ Hb).
  - assert (Hnb : blank (description data) = false).
    { apply not_true_is_false. intros Hb%trim_empty_iff_blank.
      apply is_empty_false in He. done. }
    rewrite Hnb. split; [split; discriminate|]. split; [done|].
    intros Hb. by rewrite (parseFloat_blank _ Hb).
Qed.

Lemma blank_fields_are_rejected_witness :
  errors (validateExpenseForm blank_description) !! "description"
  = Some (Some "Description is required")
  /\ errors (validateExpenseForm coffee) !! "description" = None.
Proof.
  split.
  - exact (proj2 (proj1 (blank_fields_are_rejected blank_description)) eq_refl).
  - exact (proj1 (proj2 (blank_fields_are_rejected coffee)) eq_refl).
Defined.

Lemma payload_acceptable (data : ExpenseFormData) :
  isValid (validateExpenseForm data) = true -> acceptable (payload_of data).
Proof.
  intros H%isValid_violated. pose proof (proj1 (violated_nil data) H) as Hv.
  pose proof (Hv name_description) as Hd. pose proof (Hv name_amount) as Ha.
  pose proof (Hv name_category) as Hc. pose proof (Hv name_date) as Ht.
  simpl in Hd, Ha, Hc, Ht. rewrite positive_number in Ha.
  apply negb_false_iff in Ha.
  unfold acceptable, payload_of; simpl.
  rewrite trim_idempotent.
  split; [by apply is_empty_false|]. split; [done|]. split; [done|].
  split; by apply is_empty_false.
Qed.

(** The two outcomes of a submit attempt. *)
Lemma handleSubmit_cases (today : string) (st : State) :
  (isValid (validateExpenseForm (formData st)) = false
   /\ handleSubmit today st
      = ({| formData := formData st;
            formErrors := errors (validateExpenseForm (formData st)) |},
         [preventDefault]))
  \/ (isValid (validateExpenseForm (formData st)) = true
      /\ handleSubmit today st
         = ({| formData := defaults today; formErrors := ∅ |},
            [preventDefault; onSubmit (payload_of (formData st))])).
Proof.
  destruct (isValid (validateExpenseForm (formData st))) eqn:Hv.
  - right. split; [done|]. by apply handleSubmit_accepted.
  - left. split; [done|]. by apply handleSubmit_rejected.
Qed.

Lemma submitted_app (out1 out2 : list Effect) :
  submitted (out1 ++ out2) = submitted out1 ++ submitted out2.
Proof. apply omap_app. Qed.

Lemma run_cons (ev : Event) (evs : list Event) (st : State) :
  run (ev :: evs) st
  = (fst (run evs (fst (step ev st))),
     snd (step ev st) ++ snd (run evs (fst (step ev st)))).
Proof.
  cbn [run]. destruct (step ev st) as [st1 out1]. cbn [fst snd].
  by destruct (run evs st1) as [st2 out2].
Qed.

(** Whatever the session, every payload handed to [onSubmit] is fit for an
    expense: its description is not empty and has no white space around it,
    its amount is above zero, its category and its date are not empty. *)
Theorem every_submitted_payload_is_acceptable
    (evs : list Event) (st : State) (p : Payload) :
  p ∈ submitted (snd (run evs st)) -> acceptable p.
Proof.
  revert st. induction evs as [|ev evs IH]; intros st.
  - simpl. by intros ?%elem_of_nil.
  - rewrite run_cons; cbn [snd]. rewrite submitted_app, elem_of_app.
    intros [Hin|Hin]; [|by eapply IH].
    destruct ev as [name value|today]; cbn [step] in Hin.
    + by apply elem_of_nil in Hin.
    + destruct (handleSubmit_cases today st) as [[_ E]|[Hv E]];
        rewrite E in Hin; simpl in Hin.
      * by apply elem_of_nil in Hin.
      * apply list_elem_of_singleton in Hin as ->. by apply payload_acceptable.
Qed.

Lemma every_submitted_payload_is_acceptable_witness :
  acceptable
    {| payload_description := "Taxi"; payload_amount := JS.lit "23.8";
       payload_category := "Transportation"; payload_date := "2024-01-06" |}.
Proof.
  apply (every_submitted_payload_is_acceptable
           (submit "2024-01-06"
            :: (uncurry change <$> taxi_edits) ++ [submit "2024-01-07"])
           {| formData := coffee; formErrors := ∅ |}).
  vm_compute. apply list_elem_of_In. simpl. auto.
Defined.

(** In every session each submit attempt prevents the default action of
    the form exactly once, no alert is ever raised, and [onSubmit] is called
    at most once per attempt. *)
Theorem sessions_prevent_default_and_never_alert
    (evs : list Event) (st : State) :
  length (List.filter is_preventDefault (snd (run evs st)))
  = length (List.filter is_submit evs)
  /\ List.filter is_alert (snd (run evs st)) = []
  /\ (length (submitted (snd (run evs st)))
      <= length (List.filter is_submit evs))%nat.
Proof.
  revert st. induction evs as [|ev evs IH]; intros st; [done|].
  rewrite run_cons; cbn [snd].
  rewrite !List.filter_app, submitted_app, !length_app.
  destruct (IH (fst (step ev st))) as (IH1 & IH2 & IH3).
  rewrite IH1, IH2. clear IH IH1 IH2.
  destruct ev as [name value|today]; cbn [step fst snd] in *.
  - simpl. split; [done|]. split; [done|lia].
  - destruct (handleSubmit_cases today st) as [[_ E]|[_ E]]; rewrite E in *;
      simpl in *; (split; [done|]); (split; [done|lia]).
Qed.

Lemma validation_well_formed (data : ExpenseFormData) :
  well_formed (errors (validateExpenseForm data)).
Proof.
  intros k v H. rewrite validation_errors in H.
  apply elem_of_list_to_map_2 in H. unfold entries in H.
  apply list_elem_of_fmap in H as (name & [= -> ->] & _).
  exists name. auto.
Qed.

(** The error map stays well formed throughout a session: its keys are
    names of fields of the form, each bound either to [undefined] or to the
    message of the rule of its field. *)
Theorem error_map_stays_well_formed (evs : list Event) (st : State) :
  well_formed (formErrors st) ->
  well_formed (formErrors (fst (run evs st))).
Proof.
  revert st. induction evs as [|ev evs IH]; intros st Hwf; [done|].
  rewrite run_cons; cbn [fst]. apply IH.
  destruct ev as [name value|today]; cbn [step fst].
  - unfold handleInputChange; cbn [formErrors].
    destruct (truthy (get (formErrors st) (key name))); [|done].
    intros k v. rewrite lookup_insert. case_decide as Hk.
    + intros [= <-]. exists name. auto.
    + apply Hwf.
  - destruct (handleSubmit_cases today st) as [[_ E]|[_ E]]; rewrite E;
      cbn [fst formErrors].
    + apply validation_well_formed.
    + intros k v. by rewrite lookup_empty.
Qed.

Lemma error_map_stays_well_formed_witness :
  well_formed
    (formErrors
       (fst (run [submit "2024-01-06"; change name_amount "12"]
               (initial "2024-01-06")))).
Proof.
  apply (error_map_stays_well_formed
           [submit "2024-01-06"; change name_amount "12"]
           (initial "2024-01-06")).
  intros k v. simpl. by rewrite lookup_empty.
Defined.

Lemma shown_after_change (name : FieldName) (value : string) (st : State)
    (k : string) :
  truthy (get (formErrors (handleInputChange name value st)) k)
  = truthy (get (formErrors st) k) && negb (bool_decide (k = key name)).
Proof.
  unfold handleInputChange; cbn [formErrors].
  destruct (truthy (get (formErrors st) (key name))) eqn:Hshown;
    case_bool_decide as Hk; subst; cbn [negb];
    rewrite ?andb_true_r, ?andb_false_r; try done.
  - unfold get. by rewrite lookup_insert_eq.
  - unfold get. by rewrite lookup_insert_ne.
Qed.

Lemma run_change (name : FieldName) (value : string)
    (edits : list (FieldName * string)) (st : State) :
  fst (run (uncurry change <$> (name, value) :: edits) st)
  = fst (run (uncurry change <$> edits) (handleInputChange name value st)).
Proof. rewrite fmap_cons, run_cons. reflexivity. Qed.

(** After any edits, the fields that show an error are those that showed
    one before and were not edited: an edit clears the error of its field,
    whatever the new value, brings no error back, and calls nothing. *)
Theorem edits_clear_the_errors_of_the_edited_fields
    (edits : list (FieldName * string)) (st : State) (k : string) :
  truthy (get (formErrors (fst (run (uncurry change <$> edits) st))) k)
  = truthy (get (formErrors st) k) && negb (bool_decide (k ∈ edited edits))
  /\ snd (run (uncurry change <$> edits) st) = [].
Proof.
  split; [|apply run_changes].
  revert st. induction edits as [|[name value] edits IH]; intros st.
  - simpl. by rewrite andb_true_r.
  - rewrite run_change, IH, shown_after_change, <- andb_assoc.
    f_equal. unfold edited. cbn [fmap list_fmap fst].
    rewrite <- negb_orb, <- bool_decide_or. f_equal.
    apply bool_decide_ext. by rewrite elem_of_cons.
Qed.

Lemma field_set_field (name n : FieldName) (value : string)
    (data : ExpenseFormData) :
  field name (set_field data n value)
  = if decide (n = name) then value else field name data.
Proof. destruct n, name; reflexivity. Qed.

(** A field of the draft holds the value of its last edit, and the value it
    had before when no edit touched it. *)
Theorem draft_holds_the_last_edit
    (name : FieldName) (edits : list (FieldName * string)) (st : State) :
  field name (formData (fst (run (uncurry change <$> edits) st)))
  = default (field name (formData st)) (last_write name edits).
Proof.
  revert st. induction edits as [|[n value] edits IH]; intros st; [done|].
  rewrite run_change, IH. cbn [last_write].
  destruct (last_write name edits); [done|].
  cbn [handleInputChange formData default]. rewrite field_set_field.
  by destruct (decide (n = name)).
Qed.

Lemma defaults_violated (today : string) :
  today <> "" -> violated (defaults today) = [name_description; name_amount].
Proof.
  intros H%is_empty_false. unfold violated, fields.
  cbn [List.filter violates defaults description amount category date].
  by rewrite H.
Qed.

(** Submitting again right after an accepted submission is rejected: the
    reset draft has no description and no amount, so the second attempt
    shows these two errors and does not call [onSubmit] a second time. *)
Theorem second_submit_without_edit_is_rejected
    (st : State) (today today' : string) :
  violated (formData st) = [] ->
  today <> "" ->
  handleSubmit today' (fst (handleSubmit today st))
  = ({| formData := defaults today;
        formErrors :=
          {[ "description" := Some "Description is required";
             "amount" := Some "Amount must be a positive number" ]} |},
     [preventDefault])
  /\ submitted (snd (run [submit today; submit today'] st))
     = [payload_of (formData st)].
Proof.
  intros Hv%isValid_violated Ht.
  assert (Hr : isValid (validateExpenseForm (defaults today)) = false).
  { apply not_true_is_false. rewrite isValid_violated, defaults_violated by done.
    discriminate. }
  assert (He : errors (validateExpenseForm (defaults today))
               = {[ "description" := Some "Description is required";
                    "amount" := Some "Amount must be a positive number" ]}).
  { rewrite validation_errors. unfold entries.
    by rewrite defaults_violated. }
  rewrite !run_cons. cbn [step run fst snd].
  rewrite (handleSubmit_accepted today st Hv). cbn [fst snd].
  rewrite (handleSubmit_rejected today'
             {| formData := defaults today; formErrors := ∅ |} Hr).
  cbn [fst snd formData]. by rewrite He.
Qed.

Lemma second_submit_without_edit_is_rejected_witness :
  submitted
    (snd (run [submit "2024-01-06"; submit "2024-01-06"]
            {| formData := coffee; formErrors := ∅ |}))
  = [payload_of coffee].
Proof.
  refine (proj2 (second_submit_without_edit_is_rejected
    {| formData := coffee; formErrors := ∅ |} "2024-01-06" "2024-01-06" _ _)).
  - vm_compute. reflexivity.
  - discriminate.
Defined.

(** A rejected submit attempt is idempotent: repeating it on the unchanged
    draft, on any later day, yields the same state and the same effects, and
    it does not depend on the errors shown before. *)
Theorem rejected_submit_is_idempotent
    (st : State) (today today' : string) (shown : FormErrors) :
  (exists name, violates name (formData st) = true) ->
  handleSubmit today' (fst (handleSubmit today st)) = handleSubmit today st
  /\ handleSubmit today {| formData := formData st; formErrors := shown |}
     = handleSubmit today st.
Proof.
  intros [name Hname].
  assert (Hv : isValid (validateExpenseForm (formData st)) = false).
  { apply not_true_is_false. rewrite isValid_violated, violated_nil.
    intros H. specialize (H name). congruence. }
  rewrite (handleSubmit_rejected today st Hv). cbn [fst].
  split; by rewrite handleSubmit_rejected by exact Hv.
Qed.

Lemma rejected_submit_is_idempotent_witness :
  handleSubmit "2024-01-07"
    (fst (handleSubmit "2024-01-06"
            {| formData := blank_description; formErrors := ∅ |}))
  = handleSubmit "2024-01-06"
      {| formData := blank_description; formErrors := ∅ |}.
Proof.
  exact (proj1 (rejected_submit_is_idempotent
    {| formData := blank_description; formErrors := ∅ |}
    "2024-01-06" "2024-01-07" ∅ (ex_intro _ name_description eq_refl))).
Defined.

(** Recovery: when a rejected draft is edited into one that breaks no rule
    and submitted again, the second attempt calls [onSubmit] once, with the
    payload of the edited draft, clears every error and resets the draft. *)
Theorem rejected_draft_can_be_corrected
    (st : State) (today today' : string) (edits : list (FieldName * string)) :
  (exists name, violates name (formData st) = true) ->
  violated
    (formData
       (fst (run (uncurry change <$> edits)
               {| formData := formData st;
                  formErrors := errors (validateExpenseForm (formData st)) |})))
  = [] ->
  run (submit today :: (uncurry change <$> edits) ++ [submit today']) st
  = ({| formData := defaults today'; formErrors := ∅ |},
     [preventDefault; preventDefault;
      onSubmit
        (payload_of
           (formData
              (fst (run (uncurry change <$> edits)
                      {| formData := formData st;
                         formErrors :=
                           errors (validateExpenseForm (formData st)) |}))))]).
Proof.
  intros [name Hname] H2%isValid_violated.
  assert (Hv : isValid (validateExpenseForm (formData st)) = false).
  { apply not_true_is_false. rewrite isValid_violated, violated_nil.
    intros H. specialize (H name). congruence. }
  rewrite run_cons. cbn [step]. rewrite (handleSubmit_rejected today st Hv).
  cbn [fst snd]. rewrite run_app.
  pose proof (run_changes edits
    {| formData := formData st;
       formErrors := errors (validateExpenseForm (formData st)) |}) as Hout.
  destruct (run (uncurry change <$> edits) _) as [st2 out2].
  cbn [fst snd] in *. subst out2. cbn [run step].
  by rewrite (handleSubmit_accepted today' st2 H2).
Qed.

Lemma rejected_draft_can_be_corrected_witness :
  submitted
    (snd (run (submit "2024-01-06"
               :: (uncurry change <$> [(name_description, "Tea")])
                  ++ [submit "2024-01-07"])
            {| formData := blank_description; formErrors := ∅ |}))
  = [ {| payload_description := "Tea"; payload_amount := JS.lit "10";
         payload_category := "Food"; payload_date := "2024-01-05" |} ].
Proof.
  rewrite (rejected_draft_can_be_corrected
    {| formData := blank_description; formErrors := ∅ |}
    "2024-01-06" "2024-01-07" [(name_description, "Tea")]
    (ex_intro _ name_description eq_refl)).
  - vm_compute. reflexivity.
  - vm_compute. reflexivity.
Defined.

(** White space around the description does not matter: the draft with its
    description trimmed gets the same validation result, and its submission
    has the same effects, the same payload included. *)
Theorem surrounding_white_space_is_ignored
    (data : ExpenseFormData) (today : string) (shown : FormErrors) :
  validateExpenseForm (with_trimmed_description data) = validateExpenseForm data
  /\ snd (handleSubmit today
            {| formData := with_trimmed_description data; formErrors := shown |})
     = snd (handleSubmit today {| formData := data; formErrors := shown |}).
Proof.
  assert (Hv : validateExpenseForm (with_trimmed_description data)
               = validateExpenseForm data).
  { unfold validateExpenseForm, with_trimmed_description.
    cbn [set_field description amount category date].
    by rewrite trim_idempotent. }
  split; [exact Hv|].
  unfold handleSubmit, required_field_missing, amount_not_positive, payload_of.
  cbn [formData]. rewrite Hv. unfold with_trimmed_description.
  cbn [set_field description amount category date].
  rewrite trim_idempotent.
  by repeat match goal with |- context [if ?b then _ else _] => destruct b end.
Qed.

(** The category rule cannot fail in a form driven through its own
    controls: from the initial state, as long as the category is only
    changed to an option of its selector, the category of the draft is a
    member of the enumeration and the error map has no category entry. *)
Theorem category_error_is_unreachable (today : string) (evs : list Event) :
  Forall offered evs ->
  category (formData (fst (run evs (initial today))))
    ∈ ExpenseCard.ExpenseCategory
  /\ violates name_category (formData (fst (run evs (initial today)))) = false
  /\ formErrors (fst (run evs (initial today))) !! "category" = None.
Proof.
  assert (Hgen : forall st,
    Forall offered evs ->
    category (formData st) ∈ ExpenseCard.ExpenseCategory ->
    formErrors st !! "category" = None ->
    category (formData (fst (run evs st))) ∈ ExpenseCard.ExpenseCategory
    /\ formErrors (fst (run evs st)) !! "category" = None).
  { induction evs as [|ev evs IH]; intros st Hoff Hc He; [done|].
    apply Forall_cons in Hoff as [Hev Hoff].
    rewrite run_cons; cbn [fst]. apply IH; [done|..];
      destruct ev as [name value|today0]; cbn [step fst].
    - destruct name; cbn [handleInputChange formData set_field category];
        done.
    - destruct (handleSubmit_cases today0 st) as [[_ E]|[_ E]]; rewrite E;
        cbn [fst formData]; [done|]. apply list_elem_of_In. simpl. auto.
    - unfold handleInputChange; cbn [formErrors].
      destruct (truthy (get (formErrors st) (key name))) eqn:Hshown; [|done].
      destruct name; cbn [key]; rewrite ?lookup_insert_ne by done; try done.
      unfold get in Hshown. cbn [key] in Hshown. by rewrite He in Hshown.
    - destruct (handleSubmit_cases today0 st) as [[_ E]|[_ E]]; rewrite E;
        cbn [fst formErrors]; [|done].
      rewrite (validation_lookup name_category). cbn [violates].
      apply list_elem_of_In, category_present, is_empty_false in Hc.
      by rewrite Hc. }
  intros Hoff.
  destruct (Hgen (initial today) Hoff) as [Hc He];
    [apply list_elem_of_In; simpl; auto|done|].
  split; [done|]. split; [|done].
  by apply is_empty_false, category_present, list_elem_of_In.
Qed.

Lemma category_error_is_unreachable_witness :
  formErrors
    (fst (run [change name_category "Shopping"; submit "2024-01-06"]
            (initial "2024-01-06"))) !! "category" = None.
Proof.
  refine (proj2 (proj2 (category_error_is_unreachable "2024-01-06"
    [change name_category "Shopping"; submit "2024-01-06"] _))).
  repeat constructor.
Defined.

End Sessions.

(** ** Counts and totals of the collection view *)

Section Totals.

Import ExpenseList Spec.

Lemma count_in_enumeration (es : list Expense) :
  Forall (fun e => ExpenseCard.category e ∈ ExpenseCard.ExpenseCategory) es ->
  length es
  = sum_list_with (fun c => count_in c es) ExpenseCard.ExpenseCategory.
Proof.
  induction 1 as [|e es He _ IH]; [done|].
  cbn [length]. rewrite IH. unfold ExpenseCard.ExpenseCategory in *.
  cbn [sum_list_with count_in].
  apply list_elem_of_In in He. simpl in He.
  destruct He as [<-|[<-|[<-|[<-|[<-|[]]]]]]; simpl; lia.
Qed.

(** The categories partition a well-typed collection: when every entry has
    a category of the enumeration, the count shown under All is the sum of
    the counts shown under the five categories. *)
Theorem counts_of_the_categories_add_up
    (h : JS.store Expense) (expenses : JS.ref) (es : list Expense) :
  h !! expenses = Some es ->
  Forall (fun e => ExpenseCard.category e ∈ ExpenseCard.ExpenseCategory) es ->
  count (snd (render "All" expenses h))
  = sum_list_with (fun c => count (snd (render c expenses h)))
      ExpenseCard.ExpenseCategory.
Proof.
  intros H Hes. rewrite render_eq. cbn [count].
  rewrite (visible_eq _ _ _ _ H). cbn [String.eqb Ascii.eqb Bool.eqb].
  rewrite (count_in_enumeration es Hes).
  unfold ExpenseCard.ExpenseCategory. cbn [sum_list_with].
  rewrite !render_eq. cbn [count]. rewrite !(visible_eq _ _ _ _ H).
  cbn [String.eqb Ascii.eqb Bool.eqb]. by rewrite !length_filter_category.
Qed.

Lemma counts_of_the_categories_add_up_witness :
  count (snd (render "All" 1%positive {[ 1%positive := [lunch; stamps] ]}))
  = sum_list_with
      (fun c => count (snd (render c 1%positive
                              {[ 1%positive := [lunch; stamps] ]})))
      ExpenseCard.ExpenseCategory.
Proof.
  apply (counts_of_the_categories_add_up
           {[ 1%positive := [lunch; stamps] ]} 1%positive [lunch; stamps]).
  - reflexivity.
  - repeat constructor.
Defined.

Lemma le_zero_cases (x : JS.number) :
  JS.le JS.zero x = true ->
  (exists s, x = S754_zero s) \/ x = S754_infinity false
  \/ exists m e, x = S754_finite false m e.
Proof.
  destruct x as [s|[]| |[] m e]; try discriminate; eauto.
Qed.

Lemma iter_pos_preserves {A : Type} (P : A -> Prop) (f : A -> A) :
  (forall x, P x -> P (f x)) -> forall p x, P x -> P (SpecFloat.iter_pos f p x).
Proof. intros Hf. induction p; intros x Hx; simpl; auto. Qed.

Lemma shr_1_nonneg (mrs : shr_record) : 0 <= shr_m mrs -> 0 <= shr_m (shr_1 mrs).
Proof.
  destruct mrs as [m r s]; simpl.
  destruct m as [|[p|p|]|[p|p|]]; simpl; lia.
Qed.

Lemma shr_nonneg (mrs : shr_record) (e n : Z) :
  0 <= shr_m mrs -> 0 <= shr_m (fst (shr mrs e n)).
Proof.
  intros H. destruct n; simpl; try done.
  by apply (iter_pos_preserves (fun r => 0 <= shr_m r)), H; apply shr_1_nonneg.
Qed.

Lemma shr_fexp_nonneg (m e : Z) (l : location) :
  0 <= m -> 0 <= shr_m (fst (shr_fexp JS.prec JS.emax m e l)).
Proof.
  intros H. unfold shr_fexp. apply shr_nonneg.
  by destruct l as [|[]].
Qed.

Lemma round_nearest_even_nonneg (m : Z) (l : location) :
  0 <= m -> 0 <= round_nearest_even m l.
Proof.
  intros H. destruct l as [|[]]; simpl; try lia.
  destruct (Z.even m); lia.
Qed.

Lemma binary_round_aux_nonneg (m e : Z) (l : location) :
  0 <= m ->
  JS.le JS.zero (binary_round_aux JS.prec JS.emax false m e l) = true.
Proof.
  intros H. unfold binary_round_aux.
  pose proof (shr_fexp_nonneg m e l H) as H1.
  destruct (shr_fexp JS.prec JS.emax m e l) as [mrs' e']. simpl in H1.
  pose proof (shr_fexp_nonneg _ e' loc_Exact
    (round_nearest_even_nonneg _ (loc_of_shr_record mrs') H1)) as H2.
  destruct (shr_fexp _ _ _ e' loc_Exact) as [mrs'' e'']. simpl in H2.
  destruct (shr_m mrs''); [done| |lia].
  by destruct (e'' <=? JS.emax - JS.prec).
Qed.

(** Adding two numbers that are at least zero gives one that is. *)
Lemma add_nonneg (x y : JS.number) :
  JS.le JS.zero x = true -> JS.le JS.zero y = true ->
  JS.le JS.zero (JS.add x y) = true.
Proof.
  intros [[sx ->]|[->|(mx & ex & ->)]]%le_zero_cases
         [[sy ->]|[->|(my & ey & ->)]]%le_zero_cases;
    try done; try (by destruct sx, sy); try (by destruct sx);
    try (by destruct sy).
  unfold JS.add, SFadd, binary_normalize. cbn [cond_Zopp].
  rewrite <- Pos2Z.inj_add. unfold binary_round.
  destruct (shl_align _ _ _) as [mz ez].
  by apply binary_round_aux_nonneg.
Qed.

Lemma sum_from_nonneg (es : list Expense) (acc : JS.number) :
  JS.le JS.zero acc = true ->
  Forall (fun e => JS.le JS.zero (ExpenseCard.amount e) = true) es ->
  JS.le JS.zero
    (fold_left (fun sum e => JS.add sum (ExpenseCard.amount e)) es acc) = true.
Proof.
  intros Hacc Hes. revert acc Hacc.
  induction Hes as [|e es He _ IH]; intros acc Hacc; [done|].
  simpl. apply IH. by apply add_nonneg.
Qed.

Lemma strip_zeros_cons (c : ascii) (l : list ascii) :
  JS.strip_zeros (c :: l)
  = if Ascii.eqb c "0" then JS.strip_zeros l else c :: l.
Proof. destruct c as [[] [] [] [] [] [] [] []]; reflexivity. Qed.

Lemma strip_zeros_all_digits (l : list ascii) :
  all_digits l -> all_digits (JS.strip_zeros l).
Proof.
  induction 1 as [|c l Hc Hl IH]; [constructor|].
  rewrite strip_zeros_cons. destruct (Ascii.eqb c "0"); [done|].
  by constructor.
Qed.

(** An exponent form starts with a digit, or with the letter of the
    exponent. *)
Lemma exponent_form_head (v : Z) :
  exists c r, JS.exponent_form v = String c r
              /\ (JS.is_digit c = true \/ c = "e"%char).
Proof.
  unfold JS.exponent_form.
  pose proof (digits_of_all_digits (Z.to_N v)) as Hd.
  apply List.Forall_rev, strip_zeros_all_digits, List.Forall_rev in Hd.
  destruct (rev (JS.strip_zeros (rev (JS.digits_of (Z.to_N v)))))
    as [|d [|d' more]]; simpl.
  - eauto.
  - inversion Hd; subst. eauto.
  - inversion Hd; subst. eauto.
Qed.

Lemma decimals_head (f : nat) (s : string) :
  decimals_after_digits f s = true ->
  exists c r, s = String c r /\ JS.is_digit c = true.
Proof.
  destruct s as [|c r]; [discriminate|]. simpl.
  intros [Hc _]%andb_true_iff. eauto.
Qed.

(** What [toFixed(2)] writes for a number that is at least zero starts
    neither with a minus sign nor with the first letter of NaN. *)
Lemma toFixed_nonneg_head (x : JS.number) :
  JS.le JS.zero x = true ->
  exists c r, JS.toFixed x 2 = String c r /\ c <> "-"%char /\ c <> "N"%char.
Proof.
  intros [[s ->]|[->|(m & e & ->)]]%le_zero_cases.
  - exists "0"%char, ".00". by repeat split.
  - exists "I"%char, "nfinity". by repeat split.
  - cbn [JS.toFixed]. change ("" +:+ ?s) with s.
    destruct (JS.ge_pow10 m e 21).
    + destruct (exponent_form_head
        (JS.shortest_integer
           (length (JS.digits_of (Z.to_N (Z.pos m * 2 ^ e))))
           (S754_finite false m e) (Z.pos m * 2 ^ e)
           (10 ^ Z.of_nat
                   (length (JS.digits_of (Z.to_N (Z.pos m * 2 ^ e))) - 1))))
        as (c & r & Hs & Hc).
      exists c, r. split; [exact Hs|].
      destruct Hc as [Hc| ->]; [|by split].
      split; intros ->; discriminate Hc.
    + destruct (decimals_head _ _
        (fixed_point_decimals (JS.scaled_nearest m e 2) 1))
        as (c & r & Hs & Hc).
      exists c, r. split; [exact Hs|]. split; intros ->; discriminate Hc.
Qed.

Lemma lt_zero_le_zero (x : JS.number) :
  JS.lt JS.zero x = true -> JS.le JS.zero x = true.
Proof. destruct x as [s|[]| |[] m e]; done. Qed.

Lemma toFixed_nonneg (x : JS.number) :
  JS.le JS.zero x = true ->
  JS.toFixed x 2 <> "NaN" /\ String.prefix "-" (JS.toFixed x 2) = false.
Proof.
  intros Hx. destruct (toFixed_nonneg_head _ Hx) as (c & r & -> & Hm & Hn).
  split; [congruence|].
  cbn [String.prefix]. destruct (Ascii.ascii_dec "-" c) as [<-|]; done.
Qed.

(** When every visible amount is a number that is at least zero, so is
    their sum, and the displayed total is neither NaN nor negative. *)
Theorem total_of_amounts_not_below_zero
    (h : JS.store Expense) (expenses : JS.ref) (sel : FilterOption) :
  Forall (fun e => JS.le JS.zero (ExpenseCard.amount e) = true)
    (visible sel expenses h) ->
  JS.le JS.zero (sum_amounts (visible sel expenses h)) = true
  /\ total (snd (render sel expenses h)) <> "NaN"
  /\ String.prefix "-" (total (snd (render sel expenses h))) = false.
Proof.
  intros Hes.
  assert (Hsum : JS.le JS.zero (sum_amounts (visible sel expenses h)) = true)
    by (by apply sum_from_nonneg).
  split; [exact Hsum|]. rewrite render_eq; cbn [total].
  by apply toFixed_nonneg.
Qed.

Lemma total_of_amounts_not_below_zero_witness :
  total (snd (render "All" 1%positive {[ 1%positive := [lunch; stamps] ]}))
  <> "NaN".
Proof.
  refine (proj1 (proj2 (total_of_amounts_not_below_zero
    {[ 1%positive := [lunch; stamps] ]} 1%positive "All" _))).
  vm_compute. repeat constructor.
Defined.

Lemma submitted_amount_above_zero (evs : list ExpenseForm.Event)
    (st : ExpenseForm.State) (p : ExpenseForm.Payload) :
  p ∈ ExpenseForm.submitted (snd (ExpenseForm.run evs st)) ->
  JS.lt JS.zero (ExpenseForm.payload_amount p) = true.
Proof.
  revert st. induction evs as [|ev evs IH]; intros st.
  - simpl. by intros ?%elem_of_nil.
  - rewrite run_cons; cbn [snd]. rewrite submitted_app, elem_of_app.
    intros [Hin|Hin]; [|by eapply IH].
    destruct ev as [name value|today]; cbn [ExpenseForm.step] in Hin.
    + by apply elem_of_nil in Hin.
    + destruct (handleSubmit_cases today st) as [[_ E]|[Hv E]];
        rewrite E in Hin; simpl in Hin.
      * by apply elem_of_nil in Hin.
      * apply list_elem_of_singleton in Hin as ->.
        by destruct (payload_acceptable _ Hv) as (_ & _ & ? & _).
Qed.

(** The entries a session of the form produces never spoil the total:
    when the amount of every visible entry is the amount of a payload handed
    to [onSubmit] during some session, the displayed total is neither NaN
    nor negative. *)
Theorem total_of_submitted_amounts
    (evs : list ExpenseForm.Event) (st : ExpenseForm.State)
    (h : JS.store Expense) (expenses : JS.ref) (sel : FilterOption) :
  Forall
    (fun e =>
       exists p, p ∈ ExpenseForm.submitted (snd (ExpenseForm.run evs st))
                 /\ ExpenseCard.amount e = ExpenseForm.payload_amount p)
    (visible sel expenses h) ->
  total (snd (render sel expenses h)) <> "NaN"
  /\ String.prefix "-" (total (snd (render sel expenses h))) = false.
Proof.
  intros Hes. rewrite render_eq; cbn [total].
  apply toFixed_nonneg, sum_from_nonneg; [done|].
  eapply Forall_impl; [exact Hes|]. intros e (p & Hp & ->).
  by apply lt_zero_le_zero, (submitted_amount_above_zero evs st).
Qed.

Lemma total_of_submitted_amounts_witness :
  total
    (snd (render "All" 1%positive
            {[ 1%positive := [expense "1" "Coffee" "4.50" "Food" "2024-01-05"] ]}))
  <> "NaN".
Proof.
  refine (proj1 (total_of_submitted_amounts
    [ExpenseForm.submit "2024-01-06"]
    {| ExpenseForm.formData := coffee; ExpenseForm.formErrors := ∅ |}
    {[ 1%positive := [expense "1" "Coffee" "4.50" "Food" "2024-01-05"] ]}
    1%positive "All" _)).
  constructor; [|constructor].
  exists (ExpenseForm.payload_of coffee). split; [|reflexivity].
  vm_compute. constructor.
Defined.

Lemma add_NaN (x : JS.number) : JS.add JS.NaN x = JS.NaN.
Proof. by destruct x. Qed.

Lemma sum_from_NaN (es : list Expense) :
  fold_left (fun sum e => JS.add sum (ExpenseCard.amount e)) es JS.NaN = JS.NaN.
Proof.
  induction es as [|e es IH]; [done|]. cbn [fold_left]. by rewrite add_NaN.
Qed.

Lemma isNaN_eq (x : JS.number) : JS.isNaN x = true -> x = JS.NaN.
Proof. by destruct x. Qed.

(** One amount that is not a number spoils the total: when a visible entry
    has the amount NaN, the displayed total is NaN. *)
Theorem NaN_amount_makes_the_total_NaN
    (h : JS.store Expense) (expenses : JS.ref) (sel : FilterOption)
    (e : Expense) :
  e ∈ visible sel expenses h ->
  JS.isNaN (ExpenseCard.amount e) = true ->
  total (snd (render sel expenses h)) = "NaN".
Proof.
  intros Hin HNaN%isNaN_eq. rewrite render_eq; cbn [total].
  assert (Hsum : forall es acc, e ∈ es ->
    fold_left (fun sum e => JS.add sum (ExpenseCard.amount e)) es acc = JS.NaN).
  { induction es as [|e' es IH]; intros acc; [by intros ?%elem_of_nil|].
    intros [->|Hes]%elem_of_cons; cbn [fold_left].
    - rewrite HNaN. replace (JS.add acc JS.NaN) with JS.NaN by (by destruct acc).
      apply sum_from_NaN.
    - by apply IH. }
  unfold sum_amounts. by rewrite (Hsum _ _ Hin).
Qed.

Lemma NaN_amount_makes_the_total_NaN_witness :
  total
    (snd (render "All" 1%positive
            {[ 1%positive := [lunch; expense "3" "Gift" "abc" "Other" ""] ]}))
  = "NaN".
Proof.
  apply (NaN_amount_makes_the_total_NaN
           {[ 1%positive := [lunch; expense "3" "Gift" "abc" "Other" ""] ]}
           1%positive "All" (expense "3" "Gift" "abc" "Other" "")).
  - vm_compute. apply list_elem_of_In. simpl. auto.
  - reflexivity.
Defined.

(** With one visible entry, the displayed total is the amount of that
    entry written with two decimals. *)
Theorem total_of_a_single_entry
    (h : JS.store Expense) (expenses : JS.ref) (sel : FilterOption)
    (e : Expense) :
  visible sel expenses h = [e] ->
  total (snd (render sel expenses h)) = JS.toFixed (ExpenseCard.amount e) 2
  /\ count (snd (render sel expenses h)) = 1%nat.
Proof.
  intros H. rewrite render_eq; cbn [total count]. rewrite H.
  split; [|done]. unfold sum_amounts; cbn [fold_left].
  by destruct (ExpenseCard.amount e) as [[]|[]| |[] m x].
Qed.

Lemma total_of_a_single_entry_witness :
  total (snd (render "Other" 1%positive {[ 1%positive := [lunch; stamps] ]}))
  = JS.toFixed (JS.lit "7.25") 2.
Proof.
  refine (proj1 (total_of_a_single_entry
    {[ 1%positive := [lunch; stamps] ]} 1%positive "Other" stamps _)).
  vm_compute. reflexivity.
Defined.

End Totals.

(** ** Cards, clicks and the filter control *)

Section Cards.

Import ExpenseList Spec Rendering.

Lemma visible_elements (sel : FilterOption) (expenses : JS.ref)
    (h : JS.store Expense) :
  visible sel expenses h
  = if String.eqb sel "All" then JS.elements_at h expenses
    else List.filter (fun e => String.eqb (ExpenseCard.category e) sel)
           (JS.elements_at h expenses).
Proof.
  unfold visible, filteredExpenses. destruct (String.eqb sel "All"); [done|].
  unfold JS.Array_filter.
  pose proof (alloc_elements h (List.filter
    (fun e => String.eqb (ExpenseCard.category e) sel)
    (JS.elements_at h expenses))) as Ha.
  by destruct (JS.alloc h _) as [h' r'].
Qed.

Lemma select_run_invariant (P : string -> Prop) (values : list string)
    (current : FilterOption) :
  Forall P values -> P current -> P (select_run values current).
Proof.
  intros Hvalues. revert current.
  induction Hvalues as [|v values Hv _ IH]; intros current Hc; [done|].
  cbn [select_run fold_left]. by apply IH.
Qed.

(** The filter control never selects Shopping: whatever options of the
    control are chosen, starting from All, the filter stays one of its five
    options, and an entry of category Shopping is visible under All only. *)
Theorem Shopping_entries_show_under_All_only
    (values : list string) (h : JS.store Expense) (expenses : JS.ref)
    (e : Expense) :
  Forall (fun value => value ∈ filter_options) values ->
  ExpenseCard.category e = "Shopping" ->
  select_run values "All" ∈ filter_options
  /\ (e ∈ visible (select_run values "All") expenses h ->
      select_run values "All" = "All").
Proof.
  intros Hvalues He.
  assert (Hsel : select_run values "All" ∈ filter_options).
  { apply select_run_invariant; [done|]. apply list_elem_of_In. simpl. auto. }
  split; [done|]. rewrite visible_elements.
  destruct (String.eqb_spec (select_run values "All") "All") as [|Hne];
    [done|].
  rewrite list_elem_of_In, List.filter_In, String.eqb_eq, He.
  intros [_ Hs]. rewrite <- Hs in Hsel.
  apply list_elem_of_In in Hsel. simpl in Hsel.
  repeat destruct Hsel as [Hsel|Hsel]; discriminate || done.
Qed.

Lemma Shopping_entries_show_under_All_only_witness :
  select_run ["Food"; "Other"] "All" ∈ filter_options.
Proof.
  refine (proj1 (Shopping_entries_show_under_All_only ["Food"; "Other"]
    ∅ 1%positive (expense "4" "Shoes" "60" "Shopping" "2024-01-07") _ _)).
  - repeat constructor.
  - reflexivity.
Defined.

(** One card per visible entry, in order, each with the heading of its
    entry. When the list is given a delete callback, the delete button of
    each card stops the propagation of the click and then calls that callback
    once, with the id of the entry of the card; when it is given none, no card
    has a delete button. *)
Theorem cards_delete_their_own_entry {D : Type}
    (formatCurrency : JS.number -> string) (formatDate : string -> string)
    (onDeleteExpense : option D) (sel : FilterOption) (expenses : JS.ref)
    (h : JS.store Expense) :
  delete_button
    <$> ExpenseList_cards formatCurrency formatDate onDeleteExpense sel
          expenses h
  = (fun e =>
       (fun callback => [stopPropagation; call callback (ExpenseCard.id e)])
         <$> onDeleteExpense)
      <$> visible sel expenses h
  /\ heading
       <$> ExpenseList_cards formatCurrency formatDate onDeleteExpense sel
             expenses h
     = ExpenseCard.description <$> visible sel expenses h
  /\ length
       (ExpenseList_cards formatCurrency formatDate onDeleteExpense sel
          expenses h)
     = count (snd (render sel expenses h)).
Proof.
  unfold ExpenseList_cards. rewrite render_eq. cbn [card_area count].
  destruct (visible sel expenses h) as [|e es] eqn:Hvis; [done|].
  cbn [length Nat.eqb]. rewrite <- !list_fmap_compose, !length_fmap.
  split; [|split; [|done]]; apply list_fmap_ext; intros i x _;
    unfold compose, ExpenseCard, handleDelete; cbn; by destruct onDeleteExpense.
Qed.

End Cards.
